(** * Shallow embedding of the SFX pipeline (sfx_agent)

    Python floats are IEEE doubles and are modelled with Rocq's primitive
    floats; Python dicts are ordered association lists (insertion order is
    kept, keys are unique); exceptions are the constructors of [exc]. The
    third-party libraries (pydub, pyloudnorm, numpy's IO, the language model
    CLI, the text-to-audio API, the file system) are records of operations
    that every theorem quantifies over. *)

From Stdlib Require Import String Ascii List ZArith QArith Bool Floats Lia.
Import ListNotations.

Local Open Scope string_scope.

(** ** Python values and exceptions *)

Set Warnings "-register-all,-inexact-float".

Inductive pyval : Type :=
| PNone
| PBool (b : bool)
| PInt (z : Z)
| PFloat (f : float)
| PStr (s : string)
| PPath (s : string)
| PList (l : list pyval)
| PDict (d : list (string * pyval)).

(** Exceptions raised by the modelled code, by their Python class. *)
Inductive exc : Type :=
| FileNotFoundError (m : string)
| ConfigError (m : string)
| DecomposerError (m : string)
| PostProcessingError (m : string)
| CouldntDecodeError (m : string)
| KeyError (k : string)
| TypeError (m : string)
| ValueError (m : string)
| OverflowError (m : string)
| AttributeError (m : string)
| OtherError (m : string).

(** The Python class name of an exception: what [isinstance]/[except]
    dispatches on. *)
Definition exc_class (e : exc) : string :=
  match e with
  | FileNotFoundError _ => "FileNotFoundError"
  | ConfigError _ => "ConfigError"
  | DecomposerError _ => "DecomposerError"
  | PostProcessingError _ => "PostProcessingError"
  | CouldntDecodeError _ => "CouldntDecodeError"
  | KeyError _ => "KeyError"
  | TypeError _ => "TypeError"
  | ValueError _ => "ValueError"
  | OverflowError _ => "OverflowError"
  | AttributeError _ => "AttributeError"
  | OtherError _ => "Exception"
  end.

(** Result of a Python computation: a value or a raised exception. *)
Inductive outcome (A : Type) : Type :=
| Ret (a : A)
| Exn (e : exc).
Arguments Ret {A} a.
Arguments Exn {A} e.

Definition obind {A B} (m : outcome A) (k : A -> outcome B) : outcome B :=
  match m with
  | Ret a => k a
  | Exn e => Exn e
  end.

Notation "'let!' x ':=' m 'in' k" := (obind m (fun x => k))
  (at level 200, x name, m at level 100, k at level 200).

(** ** Dict, membership, truthiness *)

Fixpoint dict_get (d : list (string * pyval)) (k : string) : option pyval :=
  match d with
  | [] => None
  | (k', v) :: d' => if String.eqb k' k then Some v else dict_get d' k
  end.

(** [d[k] = v]: replaces the value in place if the key exists, otherwise
    appends the key at the end (insertion order). *)
Fixpoint dict_set (d : list (string * pyval)) (k : string) (v : pyval)
  : list (string * pyval) :=
  match d with
  | [] => [(k, v)]
  | (k', v') :: d' =>
      if String.eqb k' k then (k', v) :: d' else (k', v') :: dict_set d' k v
  end.

Fixpoint str_prefix (p s : string) : bool :=
  match p, s with
  | EmptyString, _ => true
  | String a p', String b s' => Ascii.eqb a b && str_prefix p' s'
  | String _ _, EmptyString => false
  end.

(** [sub in s] for Python strings. *)
Fixpoint str_contains (s sub : string) : bool :=
  str_prefix sub s ||
  match s with
  | EmptyString => false
  | String _ s' => str_contains s' sub
  end.

Definition type_name (v : pyval) : string :=
  match v with
  | PNone => "NoneType" | PBool _ => "bool" | PInt _ => "int"
  | PFloat _ => "float" | PStr _ => "str" | PPath _ => "PosixPath"
  | PList _ => "list" | PDict _ => "dict"
  end.

(** [k in o] for a string [k]. *)
Definition py_contains (o : pyval) (k : string) : outcome bool :=
  match o with
  | PDict d => Ret (match dict_get d k with Some _ => true | None => false end)
  | PList l => Ret (existsb (fun x => match x with PStr s => String.eqb s k | _ => false end) l)
  | PStr s => Ret (str_contains s k)
  | _ => Exn (TypeError ("argument of type '" ++ type_name o ++ "' is not iterable"))
  end.

(** [o[k]] for a string key [k]. *)
Definition py_getitem (o : pyval) (k : string) : outcome pyval :=
  match o with
  | PDict d => match dict_get d k with Some v => Ret v | None => Exn (KeyError k) end
  | PList _ => Exn (TypeError "list indices must be integers or slices, not str")
  | PStr _ => Exn (TypeError "string indices must be integers, not 'str'")
  | _ => Exn (TypeError ("'" ++ type_name o ++ "' object is not subscriptable"))
  end.

(** [o.get(k, default)]: the method lookup comes first and fails on anything
    but a dict; the default argument is evaluated after it. *)
Definition py_get (o : pyval) (k : string) (default : outcome pyval) : outcome pyval :=
  match o with
  | PDict d =>
      obind default (fun dv => Ret (match dict_get d k with Some v => v | None => dv end))
  | _ => Exn (AttributeError ("'" ++ type_name o ++ "' object has no attribute 'get'"))
  end.

Definition py_truthy (v : pyval) : bool :=
  match v with
  | PNone => false
  | PBool b => b
  | PInt z => negb (Z.eqb z 0)
  | PFloat f => negb (PrimFloat.eqb f 0%float)
  | PStr s => negb (String.eqb s "")
  | PPath _ => true
  | PList l => match l with [] => false | _ => true end
  | PDict d => match d with [] => false | _ => true end
  end.

Fixpoint str_chars (s : string) : list pyval :=
  match s with
  | EmptyString => []
  | String a s' => PStr (String a EmptyString) :: str_chars s'
  end.

(** [for x in o]. *)
Definition py_iter (o : pyval) : outcome (list pyval) :=
  match o with
  | PList l => Ret l
  | PStr s => Ret (str_chars s)
  | PDict d => Ret (map (fun kv => PStr (fst kv)) d)
  | _ => Exn (TypeError ("'" ++ type_name o ++ "' object is not iterable"))
  end.

Fixpoint omap {A B} (f : A -> outcome B) (l : list A) : outcome (list B) :=
  match l with
  | [] => Ret []
  | x :: l' => let! y := f x in let! ys := omap f l' in Ret (y :: ys)
  end.

(** ** float() *)

(** [float(n)] for a Python int: round to nearest even; the conversion
    raises OverflowError once the rounded value leaves the double range,
    i.e. from 2^1024 - 2^970 on. *)
Definition float_of_Z (z : Z) : float :=
  SF2Prim (SpecFloat.binary_normalize prec emax z 0 false).

Definition float_int_limit : Z := (2 ^ 1024 - 2 ^ 970)%Z.

Section PyFloat.
(** CPython's parser for [float(str)] (a builtin, not repository code). *)
Variable float_of_str : string -> option float.

Definition py_float (v : pyval) : outcome float :=
  match v with
  | PFloat f => Ret f
  | PBool b => Ret (if b then 1%float else 0%float)
  | PInt z =>
      if (float_int_limit <=? Z.abs z)%Z
      then Exn (OverflowError "int too large to convert to float")
      else Ret (float_of_Z z)
  | PStr s =>
      match float_of_str s with
      | Some f => Ret f
      | None => Exn (ValueError ("could not convert string to float: '" ++ s ++ "'"))
      end
  | _ => Exn (TypeError ("float() argument must be a string or a real number, not '"
                         ++ type_name v ++ "'"))
  end.
End PyFloat.

(** ** Loudness engine: [post_processor.process_audio] *)

(** A file path as pathlib splits it: parent directory, stem and suffix
    (the suffix includes its dot, e.g. ".wav"). *)
Record fpath := mkpath { p_dir : string; p_stem : string; p_suffix : string }.

(** The float buffer handed to pyloudnorm: one column, or [reshape((-1, 2))]. *)
Inductive buffer :=
| Mono (xs : list Q)
| Stereo (xs : list (Q * Q)).

(** pydub's [AudioSegment], pyloudnorm's meter and the file system, as seen
    by [process_audio]. *)
Record AudioBackend := {
  audio : Type;
  (** [raw_audio_path.exists()]: on Python 3.10 to 3.12 an OSError other
      than a missing path (a PermissionError, say) is raised, not False. *)
  path_exists : fpath -> outcome bool;
  (** [AudioSegment.from_file] *)
  from_file : fpath -> outcome audio;
  channels : audio -> Z;
  set_channels : audio -> Z -> audio;
  (** bytes per sample *)
  sample_width : audio -> Z;
  frame_rate : audio -> Z;
  get_array_of_samples : audio -> list Z;
  max_dBFS : audio -> float;
  (** [audio.apply_gain(db)] *)
  apply_gain : audio -> float -> audio;
  (** [pyln.Meter(rate).integrated_loudness(buf)] *)
  integrated_loudness : Z -> buffer -> outcome float;
  (** [output_dir.mkdir(parents=True, exist_ok=True)] *)
  mkdir : string -> outcome unit;
  (** [segment.export(path, format=fmt)] *)
  export : audio -> fpath -> string -> outcome unit
}.

(** [np.float32(z)] for an integer [z] with [|z| < 2^128]: round to a
    24-bit significand, ties to even. *)
Definition f32_of_Z (z : Z) : Z :=
  let a := Z.abs z in
  let e := (Z.log2 a - 23)%Z in
  if (e <=? 0)%Z then z
  else
    let q := (a / 2 ^ e)%Z in
    let r := (a mod 2 ^ e)%Z in
    let h := (2 ^ (e - 1))%Z in
    let q' := if (h <? r)%Z then (q + 1)%Z
              else if (r =? h)%Z then (if Z.odd q then (q + 1)%Z else q)
              else q in
    (Z.sgn z * (q' * 2 ^ e))%Z.

(** Integer samples to the float range, by sample width in bytes:
    [np.array(samples, dtype=np.float32)], then [samples /= (1 << 15)],
    [samples /= (1 << 31)] or [(samples / (1 << 8)) * 2.0 - 1.0]; other
    widths are left as they are. pydub's samples are signed for every width
    ([array('b')], [array('h')], [array('i')]); int32 samples are first
    rounded to float32. Every later step is exact in float32: the divisions
    are by powers of two, and for width 1 the values (s - 128) / 128 with
    -128 <= s <= 127 are multiples of 1/128 below 2 in magnitude. *)
Definition scale_samples (width : Z) (xs : list Z) : list Q :=
  if (width =? 2)%Z then map (fun x => inject_Z x / inject_Z (2 ^ 15)) xs
  else if (width =? 4)%Z then map (fun x => inject_Z (f32_of_Z x) / inject_Z (2 ^ 31)) xs
  else if (width =? 1)%Z then map (fun x => (inject_Z x / inject_Z (2 ^ 8)) * 2 - 1) xs
  else map inject_Z xs.

Fixpoint pair_up (xs : list Q) : option (list (Q * Q)) :=
  match xs with
  | [] => Some []
  | x :: y :: xs' => option_map (cons (x, y)) (pair_up xs')
  | [_] => None
  end.

(** Build the array, scale it, and reshape it when there are two channels. *)
Definition to_buffer (ch width : Z) (xs : list Z) : outcome buffer :=
  let s := scale_samples width xs in
  if (ch =? 2)%Z then
    match pair_up s with
    | Some p => Ret (Stereo p)
    | None => Exn (ValueError "cannot reshape array into shape (-1,2)")
    end
  else Ret (Mono s).

Fixpoint str_lower (s : string) : string :=
  match s with
  | EmptyString => EmptyString
  | String a s' =>
      let n := nat_of_ascii a in
      String (if (65 <=? n)%nat && (n <=? 90)%nat then ascii_of_nat (n + 32) else a)
             (str_lower s')
  end.


Definition str_tail (s : string) : string :=
  match s with EmptyString => EmptyString | String _ s' => s' end.

Record presult := mkpresult {
  original_lufs : float;
  original_peak_dbfs : float;
  target_lufs : float;
  gain_applied_db : float;
  clipping_prevented : bool;
  normalized_lufs : float;
  normalized_peak_dbfs : float;
  output_path : fpath
}.

Section Loudness.
Variable B : AudioBackend.

(** File-system and encoder actions taken by [process_audio]. *)
Inductive pio :=
| PioMkdir (d : string)
| PioExport (a : audio B) (p : fpath) (fmt : string).

(** Steps 4 to 7 for a non-silent file: (gain, clipping_prevented, the
    audio to save, normalized loudness, normalized peak). *)
Definition normalize_step (a : audio B) (target l0 p0 : float)
  : outcome (float * bool * audio B * float * float) :=
  let gain_to_target_db := (target - l0)%float in
  let predicted_peak := (p0 + gain_to_target_db)%float in
  let '(gain, clip) :=
    if PrimFloat.ltb 0%float predicted_peak then ((- p0)%float, true)
    else (gain_to_target_db, false) in
  let na := apply_gain B a gain in
  let! nb := to_buffer (channels B na) (sample_width B na) (get_array_of_samples B na) in
  let! nl := integrated_loudness B (frame_rate B na) nb in
  Ret (gain, clip, na, nl, max_dBFS B na).

(** Step 1: load, then the channel check (more than two channels are
    downmixed to stereo, zero channels is an error). *)
Definition load_audio (raw : fpath) : outcome (audio B) :=
  let! a0 := match from_file B raw with
             | Ret a => Ret a
             | Exn (CouldntDecodeError _) =>
                 Exn (PostProcessingError "Failed to decode audio file. Ensure it's a valid format and ffmpeg is installed.")
             | Exn _ => Exn (PostProcessingError "Error loading audio file")
             end in
  if (channels B a0 >? 2)%Z then Ret (set_channels B a0 2)
  else if (channels B a0 =? 0)%Z then Exn (PostProcessingError "Audio file has 0 channels.")
  else Ret a0.

(** Steps 2 to 7: original metrics, then either the silence branch or the
    gain computation; the result is (original loudness, original peak,
    (gain, clipping_prevented, audio to save, normalized loudness,
    normalized peak)). *)
Definition measure (a : audio B) (target : float)
  : outcome (float * float * (float * bool * audio B * float * float)) :=
  let! buf := to_buffer (channels B a) (sample_width B a) (get_array_of_samples B a) in
  let! l0 := integrated_loudness B (frame_rate B a) buf in
  let p0 := max_dBFS B a in
  let! r :=
    if PrimFloat.eqb l0 neg_infinity then Ret (0%float, false, a, l0, p0)
    else normalize_step a target l0 p0 in
  Ret (l0, p0, r).

(** Step 8: the output path; [mkdir] runs only for an explicit output dir. *)
Definition output_target (raw : fpath) (output_dir : option string) (overwrite_original : bool)
  : option string * fpath :=
  let out_stem := p_stem raw ++ "_norm" in
  if overwrite_original then (None, raw)
  else match output_dir with
       | Some d => (Some d, mkpath d out_stem (p_suffix raw))
       | None => (None, mkpath (p_dir raw) out_stem (p_suffix raw))
       end.

(** Step 8: create the directory if asked to, then export. *)
Definition save (na : audio B) (raw : fpath) (output_dir : option string)
    (overwrite_original : bool) : outcome fpath * list pio :=
  let file_format := str_lower (str_tail (p_suffix raw)) in
  let '(od, outp) := output_target raw output_dir overwrite_original in
  let '(mkr, mkio) := match od with
                      | Some d => (mkdir B d, [PioMkdir d])
                      | None => (Ret tt, [])
                      end in
  match mkr with
  | Exn e => (Exn e, mkio)
  | Ret _ =>
      let io := (mkio ++ [PioExport na outp file_format])%list in
      match export B na outp file_format with
      | Exn e => (Exn e, io)
      | Ret _ => (Ret outp, io)
      end
  end.

(** The body of the outer [try:] of [process_audio]. *)
Definition process_try (raw : fpath) (target : float) (output_dir : option string)
    (overwrite_original : bool) : outcome presult * list pio :=
  match (let! a := load_audio raw in measure a target) with
  | Exn e => (Exn e, [])
  | Ret (l0, p0, (gain, clip, na, nl, np)) =>
      match save na raw output_dir overwrite_original with
      | (Exn e, io) => (Exn e, io)
      | (Ret outp, io) => (Ret (mkpresult l0 p0 target gain clip nl np outp), io)
      end
  end.

(** [process_audio]: the existence check, then the [try:] body with its
    handlers (FileNotFoundError and PostProcessingError are re-raised,
    anything else is wrapped in a PostProcessingError). *)
Definition process_audio (raw : fpath) (target : float) (output_dir : option string)
    (overwrite_original : bool) : outcome presult * list pio :=
  match path_exists B raw with
  | Exn e => (Exn e, [])
  | Ret false => (Exn (FileNotFoundError "Raw audio file not found"), [])
  | Ret true =>
    let '(r, io) := process_try raw target output_dir overwrite_original in
    match r with
    | Exn (FileNotFoundError m) => (Exn (FileNotFoundError m), io)
    | Exn (PostProcessingError m) => (Exn (PostProcessingError m), io)
    | Exn _ => (Exn (PostProcessingError "Unexpected error during processing"), io)
    | Ret p => (Ret p, io)
    end
  end.

End Loudness.

(** ** Python builtins used by the composer, the config and the runner *)

Section Builtins.
(** [float(str)]: CPython's parser. *)
Variable float_of_str : string -> option float.
(** [str.format(template, **kwargs)] *)
Variable str_format : string -> list (string * pyval) -> outcome string.
(** [Path(p)] resolved against the directory of the config file [c]. *)
Variable path_resolve : string -> string -> string.

(** ** Prompt composer: [composer.compose_prompt] *)

Definition DEFAULT_TEMPLATE : string :=
  "{source}: a {timbre} sound; {dynamics}, {duration}s, {pitch}; {space}; like {analogy}.".

(** [tpl = template or DEFAULT_TEMPLATE], then [tpl.format(...)] with the
    seven keyword arguments, each read as [params[key]] in order. *)
Definition compose_prompt (params : pyval) (template : option string) : outcome string :=
  let tpl :=
    match template with
    | Some t => if String.eqb t "" then DEFAULT_TEMPLATE else t
    | None => DEFAULT_TEMPLATE
    end in
  let! source := py_getitem params "source" in
  let! timbre := py_getitem params "timbre" in
  let! dynamics := py_getitem params "dynamics" in
  let! duration := py_getitem params "duration" in
  let! pitch := py_getitem params "pitch" in
  let! space := py_getitem params "space" in
  let! analogy := py_getitem params "analogy" in
  str_format tpl [("source", source); ("timbre", timbre); ("dynamics", dynamics);
                  ("duration", duration); ("pitch", pitch); ("space", space);
                  ("analogy", analogy)].

(** ** Configuration: [config.Config] *)

Definition required_config : list (string * list string) :=
  [("elevenlabs", ["voice"; "model"]);
   ("gemma", ["model"]);
   ("output", ["folder"; "file_format"]);
   ("prompt", ["default_duration"; "prompt_influence"; "batch_influences"]);
   ("processing", ["target_lufs"]);
   ("library", ["path"]);
   ("logging", ["level"])].

Fixpoint join (sep : string) (l : list string) : string :=
  match l with
  | [] => ""
  | [x] => x
  | x :: l' => x ++ sep ++ join sep l'
  end.

(** Step 1 of [_validate]: [section not in self._cfg] for every section. *)
Fixpoint missing_sections (cfg : pyval) (secs : list (string * list string))
  : outcome (list string) :=
  match secs with
  | [] => Ret []
  | (sec, _) :: secs' =>
      let! present := py_contains cfg sec in
      let! rest := missing_sections cfg secs' in
      Ret (if present then rest else sec :: rest)
  end.

(** [key not in sec_data or sec_data.get(key) is None] for a dict section. *)
Definition missing_in_section (sec : string) (d : list (string * pyval)) (keys : list string)
  : list string :=
  flat_map (fun k => match dict_get d k with
                     | None | Some PNone => [sec ++ "." ++ k]
                     | Some _ => []
                     end) keys.

(** Step 2 of [_validate]: each section must be a mapping; collect missing keys. *)
Fixpoint missing_entries (cfg : pyval) (secs : list (string * list string))
  : outcome (list string) :=
  match secs with
  | [] => Ret []
  | (sec, keys) :: secs' =>
      let! sec_data := py_getitem cfg sec in
      match sec_data with
      | PDict d =>
          let! rest := missing_entries cfg secs' in
          Ret (missing_in_section sec d keys ++ rest)%list
      | _ => Exn (ConfigError ("Config section '" ++ sec ++ "' is not a dictionary/mapping."))
      end
  end.

Definition cfg_item (cfg : pyval) (sec key : string) : outcome pyval :=
  let! s := py_getitem cfg sec in py_getitem s key.

(** The body of the [try:] of step 3. *)
Definition type_checks (cfg : pyval) : outcome unit :=
  let! v1 := cfg_item cfg "prompt" "default_duration" in
  let! _ := py_float float_of_str v1 in
  let! v2 := cfg_item cfg "prompt" "prompt_influence" in
  let! _ := py_float float_of_str v2 in
  let! v3 := cfg_item cfg "processing" "target_lufs" in
  let! _ := py_float float_of_str v3 in
  let! bi := cfg_item cfg "prompt" "batch_influences" in
  match bi with
  | PList [] => Ret tt
  | PList l => let! _ := omap (py_float float_of_str) l in Ret tt
  | _ => Exn (ConfigError "prompt.batch_influences must be a list")
  end.

Definition is_str (v : pyval) : bool := match v with PStr _ => true | _ => false end.

(** [Config._validate] *)
Definition validate (cfg : pyval) : outcome unit :=
  let! ms := missing_sections cfg required_config in
  match ms with
  | _ :: _ => Exn (ConfigError ("Missing required config sections: " ++ join ", " ms))
  | [] =>
      let! mk := missing_entries cfg required_config in
      match mk with
      | _ :: _ => Exn (ConfigError ("Missing required config entries: " ++ join ", " mk))
      | [] =>
          let! _ :=
            match type_checks cfg with
            | Ret u => Ret u
            | Exn (ValueError m) => Exn (ConfigError ("Invalid numeric value in config: " ++ m))
            | Exn (KeyError k) => Exn (ConfigError ("Unexpected missing key during type validation: " ++ k))
            | Exn (ConfigError m) => Exn (ConfigError m)
            | Exn _ => Exn (ConfigError "Error during type validation")
            end in
          let! lp := cfg_item cfg "library" "path" in
          if negb (is_str lp) then Exn (ConfigError "library.path must be a string") else
          let! lv := cfg_item cfg "logging" "level" in
          if negb (is_str lv) then Exn (ConfigError "logging.level must be a string") else
          Ret tt
      end
  end.

Record Config := mkconfig { config_path : string; cfg_data : pyval }.

(** What the file system holds at a config path: [None] if the file does
    not exist, [Some None] if opening or parsing it fails, [Some (Some v)]
    for the document [yaml.load] returns ([PNone] for an empty file). *)
Definition config_files := string -> option (option pyval).

(** [Config(path)] *)
Definition config_init (files : config_files) (path : string) : outcome Config :=
  let p := if String.eqb path "" then "configs/sfx_agent.yml" else path in
  match files p with
  | None => Exn (FileNotFoundError ("Config file not found: " ++ p))
  | Some None => Exn (ConfigError ("Error loading or parsing config file " ++ p))
  | Some (Some PNone) =>
      (* the ConfigError for an empty file is raised inside the try and
         re-wrapped by its [except Exception] *)
      Exn (ConfigError ("Error loading or parsing config file " ++ p ++ ": Config file is empty"))
  | Some (Some v) => let! _ := validate v in Ret (mkconfig p v)
  end.

(** Properties of [Config]. *)
Definition default_duration (c : Config) : outcome float :=
  let! v := cfg_item (cfg_data c) "prompt" "default_duration" in py_float float_of_str v.

Definition batch_influences (c : Config) : outcome (list float) :=
  let! v := cfg_item (cfg_data c) "prompt" "batch_influences" in
  match (let! xs := py_iter v in omap (py_float float_of_str) xs) with
  | Ret l => Ret l
  | Exn (ValueError _) | Exn (TypeError _) => Ret []
  | Exn e => Exn e
  end.

Definition cfg_target_lufs (c : Config) : outcome float :=
  let! v := cfg_item (cfg_data c) "processing" "target_lufs" in py_float float_of_str v.

Definition path_of (c : Config) (v : pyval) : outcome string :=
  match v with
  | PStr s | PPath s => Ret (path_resolve (config_path c) s)
  | _ => Exn (TypeError ("expected str, bytes or os.PathLike object, not " ++ type_name v))
  end.

Definition output_folder (c : Config) : outcome string :=
  let! v := cfg_item (cfg_data c) "output" "folder" in path_of c v.

Definition library_path (c : Config) : outcome string :=
  let! v := cfg_item (cfg_data c) "library" "path" in path_of c v.

Definition gemma_model (c : Config) : outcome pyval := cfg_item (cfg_data c) "gemma" "model".

(** [self._cfg["output"]["file_format"].lower()]; the warning for formats
    other than wav and mp3 only logs. *)
Definition output_format (c : Config) : outcome string :=
  let! v := cfg_item (cfg_data c) "output" "file_format" in
  match v with
  | PStr s => Ret (str_lower s)
  | _ => Exn (AttributeError ("'" ++ type_name v ++ "' object has no attribute 'lower'"))
  end.



(** ** Pipeline orchestrator: [runner.run_sfx_pipeline] *)

(** Calls the orchestrator makes, in the order it makes them. *)
Inductive event :=
| EvDecompose (brief : string)
| EvCompose (params : pyval)
| EvGenerate (prompt : string) (duration influence : float)
| EvProcess (raw : pyval) (target : float) (output_dir : string)
| EvLibrary (brief : string) (results : list pyval) (path : string).

(** The error strings the orchestrator appends; each constructor stands for
    the f-string at its [errors.append], with the influence printed [:.2f]. *)
Inductive msg :=
| MsgConfig (e : exc)          (* "Configuration error: {e}" *)
| MsgDecompose (e : exc)       (* "Failed to decompose brief: {e}" *)
| MsgCompose (k : string) (influence : float)
    (* "Error during composition (missing key {e}) for influence {influence:.2f}." *)
| MsgPostProcess (influence : float) (raw : pyval) (e : exc)
    (* "Error during post-processing for influence {influence:.2f} (raw file: {raw_audio_path}): {e}" *)
| MsgLoop (influence : float) (e : exc)
    (* "Error during generation/processing loop for influence {influence:.2f}: {e}" *)
| MsgNoOutput (raw : pyval)
    (* "Post-processing completed but no output path returned for {raw_audio_path}." *)
| MsgLibrary (lib : string) (e : exc)
    (* "Failed to add results to library {cfg.library_path}: {e}" *)
| MsgUnhandled (e : exc).      (* "Unhandled exception during pipeline execution: {e}" *)

Definition msg_influence (m : msg) : option float :=
  match m with
  | MsgCompose _ i | MsgPostProcess i _ _ | MsgLoop i _ => Some i
  | _ => None
  end.

(** The outside world of one run: the config files, and the answers of
    [decompose_brief], [generate_audio], [process_audio] and
    [add_to_library], each of which may depend on every call made before. *)
Record World := {
  w_config : config_files;
  w_decompose : string -> list event -> outcome pyval;
  w_generate : string -> float -> float -> Config -> list event -> outcome pyval;
  w_process : pyval -> float -> string -> list event -> outcome pyval;
  w_add_library : string -> list pyval -> string -> list event -> outcome pyval
}.

(** The run's mutable locals and the calls made so far. *)
Record st := mkst {
  processed_files : list pyval;
  errors : list msg;
  results_for_library : list pyval;
  raw_audio_path : pyval;
  trace : list event
}.

Definition init_st (t : list event) : st := mkst [] [] [] PNone t.

(** State and exceptions; a raised exception keeps the state reached. *)
Definition M (A : Type) := st -> outcome A * st.

Definition mret {A} (a : A) : M A := fun s => (Ret a, s).
Definition mbind {A B} (m : M A) (k : A -> M B) : M B :=
  fun s => match m s with
           | (Ret a, s') => k a s'
           | (Exn e, s') => (Exn e, s')
           end.
Definition mraise {A} (e : exc) : M A := fun s => (Exn e, s).
Definition mlift {A} (o : outcome A) : M A := fun s => (o, s).
(** [try: m except Exception as e: h e] *)
Definition mtry {A} (m : M A) (h : exc -> M A) : M A :=
  fun s => match m s with
           | (Exn e, s') => h e s'
           | r => r
           end.

Notation "'let*' x ':=' m 'in' k" := (mbind m (fun x => k))
  (at level 200, x name, m at level 100, k at level 200).

Definition push_error (m : msg) : M unit :=
  fun s => (Ret tt, mkst (processed_files s) (errors s ++ [m])%list
                         (results_for_library s) (raw_audio_path s) (trace s)).
Definition push_processed (p : pyval) : M unit :=
  fun s => (Ret tt, mkst (processed_files s ++ [p])%list (errors s)
                         (results_for_library s) (raw_audio_path s) (trace s)).
Definition push_record (r : pyval) : M unit :=
  fun s => (Ret tt, mkst (processed_files s) (errors s)
                         (results_for_library s ++ [r])%list (raw_audio_path s) (trace s)).
Definition set_raw (r : pyval) : M unit :=
  fun s => (Ret tt, mkst (processed_files s) (errors s)
                         (results_for_library s) r (trace s)).

(** Make a call: the answer may depend on the calls made before it. *)
Definition call {A} (ev : event) (answer : list event -> outcome A) : M A :=
  fun s => (answer (trace s),
            mkst (processed_files s) (errors s) (results_for_library s)
                 (raw_audio_path s) (trace s ++ [ev])%list).

Variable W : World.

Definition REQUIRED_DECOMPOSER_KEYS_FOR_PROMPT : list string :=
  ["source"; "timbre"; "dynamics"; "pitch"; "space"; "analogy"].

(** [[k for k in REQUIRED if k not in structured_params]] *)
Fixpoint missing_keys (sp : pyval) (ks : list string) : outcome (list string) :=
  match ks with
  | [] => Ret []
  | k :: ks' =>
      let! present := py_contains sp k in
      let! rest := missing_keys sp ks' in
      Ret (if present then rest else k :: rest)
  end.

(** [str] of a list of strings. *)
Definition pylist_repr (ks : list string) : string :=
  "[" ++ join ", " (map (fun k => "'" ++ k ++ "'") ks) ++ "]".

(** Step 2: decompose and check the required keys. [None] stands for the
    [return] after a DecomposerError. *)
Definition decompose_step (brief : string) : M (option pyval) :=
  mtry
    (let* sp := call (EvDecompose brief) (w_decompose W brief) in
     let* missing := mlift (missing_keys sp REQUIRED_DECOMPOSER_KEYS_FOR_PROMPT) in
     match missing with
     | [] => mret (Some sp)
     | _ :: _ =>
         mraise (DecomposerError ("Decomposer output missing required keys for prompt: "
                                  ++ pylist_repr missing))
     end)
    (fun e => match e with
              | DecomposerError _ => let* _ := push_error (MsgDecompose e) in mret None
              | _ => mraise e
              end).

(** [float(structured_params.get('duration', cfg.default_duration))] *)
Definition resolve_duration (cfg : Config) (sp : pyval) : outcome float :=
  let! v := py_get sp "duration" (let! d := default_duration cfg in Ret (PFloat d)) in
  py_float float_of_str v.

Definition cfg_influences_value (cfg : Config) : outcome pyval :=
  let! l := batch_influences cfg in Ret (PList (map PFloat l)).

(** Step 3: the influence list. *)
Definition resolve_influences (cfg : Config) (sp : pyval) : outcome (list float) :=
  let! v := py_get sp "batch_influences" (cfg_influences_value cfg) in
  let! v' := match v with
             | PList (_ :: _) => Ret v
             | _ => cfg_influences_value cfg
             end in
  match (let! xs := py_iter v' in omap (py_float float_of_str) xs) with
  | Ret l => Ret l
  | Exn (ValueError _) | Exn (TypeError _) => batch_influences cfg
  | Exn e => Exn e
  end.

(** [iter_params = structured_params.copy()] with [prompt_influence] and
    [duration] set. *)
Definition iter_params (sp : pyval) (influence duration : float) : outcome pyval :=
  match sp with
  | PDict d =>
      Ret (PDict (dict_set (dict_set d "prompt_influence" (PFloat influence))
                           "duration" (PFloat duration)))
  | PList _ => Exn (TypeError "list indices must be integers or slices, not str")
  | _ => Exn (AttributeError ("'" ++ type_name sp ++ "' object has no attribute 'copy'"))
  end.

(** [library_entry = processing_results.copy()] plus brief, prompt and raw path. *)
Definition library_entry (res : pyval) (brief prompt : string) (raw : pyval) : outcome pyval :=
  match res with
  | PDict d =>
      Ret (PDict (dict_set (dict_set (dict_set d "brief" (PStr brief))
                                     "prompt" (PStr prompt))
                           "raw_audio_path" raw))
  | _ => Exn (AttributeError ("'" ++ type_name res ++ "' object has no attribute 'copy'"))
  end.

(** The [try:] suite of one variation (steps 4a to 4c and the bookkeeping). *)
Definition variation_try (brief : string) (cfg : Config) (sp : pyval)
    (duration influence : float) : M unit :=
  let* params := mlift (iter_params sp influence duration) in
  let* text_prompt := call (EvCompose params) (fun _ => compose_prompt params None) in
  let* raw := call (EvGenerate text_prompt duration influence)
                   (w_generate W text_prompt duration influence cfg) in
  let* _ := set_raw raw in
  let* target := mlift (cfg_target_lufs cfg) in
  let* outdir := mlift (output_folder cfg) in
  let* res := call (EvProcess raw target outdir) (w_process W raw target outdir) in
  let* processed_file := mlift (py_get res "output_path" (Ret PNone)) in
  if py_truthy processed_file then
    let* _ := push_processed processed_file in
    let* entry := mlift (library_entry res brief text_prompt raw) in
    push_record entry
  else push_error (MsgNoOutput raw).

(** The three [except] clauses of the variation loop. *)
Definition variation_except (influence : float) (e : exc) : M unit :=
  fun s =>
    match e with
    | KeyError k => push_error (MsgCompose k influence) s
    | FileNotFoundError _ | PostProcessingError _ =>
        push_error (MsgPostProcess influence (raw_audio_path s) e) s
    | _ => push_error (MsgLoop influence e) s
    end.

Definition variation (brief : string) (cfg : Config) (sp : pyval)
    (duration influence : float) : M unit :=
  let* _ := set_raw PNone in
  mtry (variation_try brief cfg sp duration influence) (variation_except influence).

Fixpoint run_variations (brief : string) (cfg : Config) (sp : pyval) (duration : float)
    (influences : list float) : M unit :=
  match influences with
  | [] => mret tt
  | i :: rest =>
      let* _ := variation brief cfg sp duration i in
      run_variations brief cfg sp duration rest
  end.

(** Step 5. *)
Definition store_results (brief : string) (cfg : Config) : M unit :=
  fun s =>
    match results_for_library s with
    | [] => (Ret tt, s)
    | recs =>
        mtry (let* lp := mlift (library_path cfg) in
              let* _ := call (EvLibrary brief recs lp) (w_add_library W brief recs lp) in
              mret tt)
             (fun e => let* lp := mlift (library_path cfg) in push_error (MsgLibrary lp e)) s
    end.

(** Steps 4 and 5 for a resolved variation set. *)
Definition variations_and_store (brief : string) (cfg : Config) (sp : pyval)
    (duration : float) (influences : list float) : M unit :=
  let* _ := run_variations brief cfg sp duration influences in
  store_results brief cfg.

(** Everything after the configuration, inside the outer [try:]. *)
Definition pipeline_body (brief : string) (cfg : Config) : M unit :=
  let* o := decompose_step brief in
  match o with
  | None => mret tt
  | Some sp =>
      let* duration := mlift (resolve_duration cfg sp) in
      let* influences := mlift (resolve_influences cfg sp) in
      variations_and_store brief cfg sp duration influences
  end.

Definition run_sfx_pipeline (brief config_path : string) : M (list pyval * list msg) :=
  let* oc := (fun s =>
                match config_init (w_config W) config_path with
                | Ret c => (Ret (Some c), s)
                | Exn (FileNotFoundError m) =>
                    mbind (push_error (MsgConfig (FileNotFoundError m))) (fun _ => mret None) s
                | Exn (ConfigError m) =>
                    mbind (push_error (MsgConfig (ConfigError m))) (fun _ => mret None) s
                | Exn e => (Exn e, s)
                end) in
  let* _ := match oc with
            | None => mret tt
            | Some cfg => mtry (pipeline_body brief cfg) (fun e => push_error (MsgUnhandled e))
            end in
  fun s => (Ret (processed_files s, errors s), s).

(** A run from fresh locals, with the calls made before it. *)
Definition run_pipeline (brief config_path : string) (before : list event)
  : outcome (list pyval * list msg) * st :=
  run_sfx_pipeline brief config_path (init_st before).

End Builtins.

(** ** Model calls: [decomposer.call_gemma], [decomposer.decompose_brief],
    [feedback.request_feedback] *)

(** What [subprocess.check_output(cmd, stderr=STDOUT)] does: the output, as
    [.decode("utf-8")] sees it ([None] when it is not valid UTF-8); a
    CalledProcessError, with its output decoded ignoring errors; or another
    exception raised while starting the process (FileNotFoundError when
    [ollama] is not installed). *)
Inductive proc_result :=
| ProcOutput (text : option string)
| ProcFailed (output : string)
| ProcRaises (e : exc).

Definition dquote : string := String (ascii_of_nat 34) EmptyString.
Definition newline : string := String (ascii_of_nat 10) EmptyString.

Section Gemma.
Variable float_of_str : string -> option float.
(** [json.loads]: [None] for a JSONDecodeError. *)
Variable json_loads : string -> option pyval.
(** [str] of a Python value. *)
Variable py_str : pyval -> string.

(** [call_gemma(prompt, model)]: [Config()] loads the default config file
    first, whatever [model] is. *)
Definition call_gemma (files : config_files) (run : list string -> proc_result)
    (prompt : string) (model : pyval) : outcome pyval :=
  let! cfg := config_init float_of_str files "" in
  let! model_name := if py_truthy model then Ret model else gemma_model cfg in
  match model_name with
  | PStr m | PPath m =>
      match run ["ollama"; "eval"; m; "--json"; "--prompt"; prompt] with
      | ProcOutput (Some text) =>
          match json_loads text with
          | Some v => Ret v
          | None => Exn (DecomposerError ("Invalid JSON from Gemma3: " ++ text))
          end
      | ProcOutput None => Exn (ValueError "'utf-8' codec can't decode the output")
      | ProcFailed out => Exn (DecomposerError ("Gemma3 call failed: " ++ out))
      | ProcRaises e => Exn e
      end
  | _ => Exn (TypeError ("expected str, bytes or os.PathLike object, not " ++ type_name model_name))
  end.

Definition decompose_instruction (brief : string) : string :=
  "Decompose this SFX brief into JSON with keys: "
  ++ "source, timbre, dynamics, duration, pitch, space, analogy, "
  ++ "prompt_influence, batch_influences. "
  ++ "Brief: " ++ dquote ++ brief ++ dquote.

Definition decompose_brief (files : config_files) (run : list string -> proc_result)
    (brief : string) : outcome pyval :=
  call_gemma files run (decompose_instruction brief) PNone.

Definition feedback_instruction (prompt : string) (metrics : pyval) : string :=
  "You are an assistant that improves sound-effect prompts. "
  ++ "Given the following text-to-audio prompt and audio metrics, "
  ++ "suggest precise adjustments to optimize the sound quality." ++ newline
  ++ "Prompt: " ++ dquote ++ prompt ++ dquote ++ newline
  ++ "Metrics: " ++ py_str metrics.

(** [request_feedback]; a FeedbackError is written as the [OtherError]
    with its class name in front of [str(e)]. *)
Definition request_feedback (files : config_files) (run : list string -> proc_result)
    (prompt : string) (metrics : pyval) : outcome pyval :=
  let! cfg := config_init float_of_str files "" in
  let! model_name := gemma_model cfg in
  match call_gemma files run (feedback_instruction prompt metrics) model_name with
  | Exn (DecomposerError m) => Exn (OtherError ("FeedbackError: Feedback request failed: " ++ m))
  | r => r
  end.

End Gemma.

(** ** Generator: the file name of [generate_audio] *)

(** [c.isalnum()] for the character whose code point is [nat_of_ascii c].
    The model's strings hold the code points 0 to 255 (Latin-1); on these
    the table is CPython's: the ASCII digits and letters, the superscripts,
    the vulgar fractions, the ordinal indicators, the micro sign, and the
    accented letters, the multiplication and division signs excepted. *)
Definition is_alnum (c : ascii) : bool :=
  let n := nat_of_ascii c in
  let within lo hi := ((lo <=? n) && (n <=? hi))%nat in
  (within 48 57 || within 65 90 || within 97 122
   || (n =? 170) || within 178 179 || (n =? 181) || within 185 186
   || within 188 190 || within 192 214 || within 216 246 || within 248 255)%nat.

Definition safe_char (c : ascii) : ascii :=
  if is_alnum c || Ascii.eqb c "_" || Ascii.eqb c "-" then c else "_"%char.

Fixpoint str_map (f : ascii -> ascii) (s : string) : string :=
  match s with
  | EmptyString => EmptyString
  | String c s' => String (f c) (str_map f s')
  end.

(** [safe = "".join(c if c.isalnum() or c in ("_", "-") else "_" for c in prompt)[:50]] *)
Definition safe_name (prompt : string) : string :=
  substring 0 50 (str_map safe_char prompt).

(** ** Library store: [library.add_to_library] *)

(** Contents of a file as [yaml.load] sees it. *)
Inductive fcontent :=
| Parsed (v : pyval)
| Unparseable.

(** Files by path. Directories are not modelled ([mkdir(parents=True,
    exist_ok=True)] is taken to succeed), and a [yaml.dump] that succeeds
    writes the data it is given, as [yaml.load] reads it back. *)
Definition files := string -> option fcontent.

Definition fs_write (fs : files) (p : string) (c : fcontent) : files :=
  fun q => if String.eqb q p then Some c else fs q.

(** What [YAML(typ="safe").dump] can write: the safe representer has no
    representer for [pathlib.Path]. *)
Fixpoint representable (v : pyval) : bool :=
  match v with
  | PPath _ => false
  | PList l => forallb representable l
  | PDict d => forallb (fun kv => representable (snd kv)) d
  | _ => true
  end.

(** [add_to_library]: the path returned, and the files afterwards.
    [lib_path.open("w")] truncates the store before [yaml.dump(data, f)]
    runs; when the dump raises a RepresenterError it does so while
    representing [data], before anything is emitted, so the store is left
    empty, and [yaml.load] reads an empty file as None. An error raised
    before the [open("w")] leaves the files as they were. *)
Definition add_to_library (fs : files) (brief : string) (results : list pyval)
    (path : option string) : outcome string * files :=
  let lib_path := match path with
                  | Some p => if String.eqb p "" then "prompt_library.yml" else p
                  | None => "prompt_library.yml"
                  end in
  (* data = yaml.load(f) or {}  /  data = {} *)
  match match fs lib_path with
        | None => Ret (PDict [])
        | Some Unparseable => Exn (OtherError "YAMLError")
        | Some (Parsed v) => Ret (if py_truthy v then v else PDict [])
        end with
  | Exn e => (Exn e, fs)
  | Ret (PDict d) =>
      (* existing = data.setdefault(brief, []) *)
      let '(d1, existing) := match dict_get d brief with
                             | Some v => (d, v)
                             | None => (dict_set d brief (PList []), PList [])
                             end in
      match existing with
      | PList l =>
          (* existing.extend(results): [existing] is the list stored in [data] *)
          let d2 := dict_set d1 brief (PList (l ++ results)%list) in
          if representable (PDict d2)
          then (Ret lib_path, fs_write fs lib_path (Parsed (PDict d2)))
          else (Exn (OtherError "RepresenterError: cannot represent an object"),
                fs_write fs lib_path (Parsed PNone))
      | _ => (Exn (AttributeError ("'" ++ type_name existing ++ "' object has no attribute 'extend'")), fs)
      end
  | Ret data => (Exn (AttributeError ("'" ++ type_name data ++ "' object has no attribute 'setdefault'")), fs)
  end.

(** ** Concrete instances *)

(** A backend whose decoder returns one 16-bit clip with [nch] channels
    (or fails with a decode error when [decodes] is false); the audio value
    is the gain applied to it so far, so pydub's peak after [apply_gain g]
    is [peak + g]. The meter reports [lufs] for every buffer. *)
Definition demo_backend (decodes : bool) (nch : Z) (samples : list Z) (lufs peak : float)
  : AudioBackend := {|
  audio := float;
  path_exists := fun _ => Ret true;
  from_file := fun _ => if decodes then Ret 0%float
                        else Exn (CouldntDecodeError "Decoding failed. ffmpeg returned error code: 1");
  channels := fun _ => nch;
  set_channels := fun a _ => a;
  sample_width := fun _ => 2%Z;
  frame_rate := fun _ => 48000%Z;
  get_array_of_samples := fun _ => samples;
  max_dBFS := fun g => (peak + g)%float;
  apply_gain := fun a g => (a + g)%float;
  integrated_loudness := fun _ _ => Ret lufs;
  mkdir := fun _ => Ret tt;
  export := fun _ _ _ => Ret tt
|}.

Definition demo_raw : fpath := mkpath "out" "clip" ".wav".

(** A loud clip: L0 = -25 LUFS, peak -5 dBFS. *)
Definition demo_loud : AudioBackend := demo_backend true 1 [0; 1000; -1000]%Z (-25)%float (-5)%float.

Definition demo_out : fpath := mkpath "out" "clip_norm" ".wav".

(** What [process_audio demo_loud demo_raw (-18) None false] returns: the
    desired gain 7 dB would put the peak at +2 dBFS, so 5 dB is applied. *)
Definition demo_loud_result : presult :=
  mkpresult (-25)%float (-5)%float (-18)%float 5%float true (-25)%float 0%float demo_out.

(** Half a second of 16-bit samples of amplitude 1 (peak 20*log10(1/32768)
    dBFS, about -90.3): far below pyloudnorm's absolute gate of -70 LUFS, so
    no gating block survives and the meter reports -inf. *)
Definition quiet_samples : list Z := flat_map (fun _ => [1; -1]%Z) (seq 0 (120 * 100)).

Definition demo_quiet : AudioBackend :=
  demo_backend true 1 quiet_samples neg_infinity (-90.308998699194348)%float.

(** A decoder that reports zero channels, and one that cannot decode. *)
Definition demo_no_channels : AudioBackend := demo_backend true 0 [] (-20)%float (-3)%float.
Definition demo_undecodable : AudioBackend := demo_backend false 1 [] (-20)%float (-3)%float.

(** Builtins for a concrete run: no string parses as a float, the format
    string is returned as it is, and paths resolve to themselves. *)
Definition demo_fos (_ : string) : option float := None.
Definition demo_fmt (t : string) (_ : list (string * pyval)) : outcome string := Ret t.
Definition demo_pr (_ s : string) : string := s.

(** A configuration that passes [_validate]. *)
Definition demo_cfg_val : pyval :=
  PDict [("elevenlabs", PDict [("voice", PStr "v1"); ("model", PStr "sfx")]);
         ("gemma", PDict [("model", PStr "gemma3")]);
         ("output", PDict [("folder", PStr "out"); ("file_format", PStr "wav")]);
         ("prompt", PDict [("default_duration", PFloat 2); ("prompt_influence", PFloat 0.3);
                           ("batch_influences", PList [PFloat 0.3; PFloat 0.7])]);
         ("processing", PDict [("target_lufs", PFloat (-18))]);
         ("library", PDict [("path", PStr "lib.yml")]);
         ("logging", PDict [("level", PStr "INFO")])].

(** [cfg.yml] holds that configuration; [int.yml] holds the YAML document [42]. *)
Definition demo_files : config_files :=
  fun p => if String.eqb p "cfg.yml" then Some (Some demo_cfg_val)
           else if String.eqb p "int.yml" then Some (Some (PInt 42))
           else None.

Definition demo_cfg : Config := mkconfig "cfg.yml" demo_cfg_val.

(** Decomposer output with the six prompt fields, a duration, and the given
    [batch_influences]. *)
Definition demo_sp (infl : pyval) : pyval :=
  PDict [("source", PStr "door"); ("timbre", PStr "wooden"); ("dynamics", PStr "loud");
         ("pitch", PStr "low"); ("space", PStr "hall"); ("analogy", PStr "thunder");
         ("duration", PFloat 2); ("batch_influences", infl)].

(** Decomposer output without the [analogy] field. *)
Definition demo_partial : list (string * pyval) :=
  [("source", PStr "door"); ("timbre", PStr "wooden"); ("dynamics", PStr "loud");
   ("pitch", PStr "low"); ("space", PStr "hall"); ("duration", PFloat 2)].

(** The world of a run: the decomposer answers [decomp]; the generator
    fails for the influence [bad] and otherwise writes [out/raw.wav];
    post-processing and the library store succeed. *)
Definition demo_world (decomp : pyval) (bad : float) : World := {|
  w_config := demo_files;
  w_decompose := fun _ _ => Ret decomp;
  w_generate := fun _ _ i _ _ =>
    if PrimFloat.eqb i bad then Exn (OtherError "ApiError: generation failed")
    else Ret (PPath "out/raw.wav");
  w_process := fun _ _ _ _ => Ret (PDict [("output_path", PStr "out/raw_norm.wav")]);
  w_add_library := fun _ _ p _ => Ret (PPath p)
|}.

(** A world whose decomposer raises [e]. *)
Definition demo_world_decompose_raises (e : exc) : World := {|
  w_config := demo_files;
  w_decompose := fun _ _ => Exn e;
  w_generate := fun _ _ _ _ _ => Ret PNone;
  w_process := fun _ _ _ _ => Ret PNone;
  w_add_library := fun _ _ _ _ => Ret PNone
|}.

(** A library store file holding one record under the brief "X". *)
Definition demo_store : files :=
  fun q => if String.eqb q "lib.yml"
           then Some (Parsed (PDict [("X", PList [PDict [("path", PStr "a.wav")]])]))
           else None.

(** ** Specifications of the orchestrator's runs *)

(** [s'] extends the trace of [s] with calls that all satisfy [P]. *)
Definition ext (P : event -> Prop) (s s' : st) : Prop :=
  exists new, trace s' = (trace s ++ new)%list /\ Forall P new.

Definition Preserves {A} (P : event -> Prop) (m : M A) : Prop :=
  forall s, ext P s (snd (m s)).

Definition Returns {A} (Q : A -> Prop) (m : M A) : Prop :=
  forall s a s', m s = (Ret a, s') -> Q a.

(** No call to [add_to_library]. *)
Definition no_lib (ev : event) : Prop :=
  match ev with EvLibrary _ _ _ => False | _ => True end.

Definition opt_list {A} (o : option A) : list A :=
  match o with Some a => [a] | None => [] end.

(** What one variation may do to the run's locals: succeed, adding one
    processed path and one library record, or fail, adding exactly one error
    message that names its influence value. *)
Inductive variation_spec (brief : string) (i : float) (s s' : st) : option pyval -> Prop :=
| vs_ok p r res prompt raw :
    processed_files s' = (processed_files s ++ [p])%list ->
    results_for_library s' = (results_for_library s ++ [r])%list ->
    errors s' = errors s ->
    library_entry res brief prompt raw = Ret r ->
    variation_spec brief i s s' (Some r)
| vs_fail m :
    processed_files s' = processed_files s ->
    results_for_library s' = results_for_library s ->
    errors s' = (errors s ++ [m])%list ->
    msg_influence m = Some i ->
    variation_spec brief i s s' None.

(** Every influence value of the list is attempted, in order; [recs] are the
    records of the variations that succeeded. *)
Inductive loop_spec (brief : string) : list float -> st -> st -> list pyval -> Prop :=
| ls_nil s : loop_spec brief [] s s []
| ls_cons i rest s s1 s2 o recs :
    variation_spec brief i s s1 o ->
    loop_spec brief rest s1 s2 recs ->
    loop_spec brief (i :: rest) s s2 (opt_list o ++ recs)%list.

(** The contract of [process_audio] as the orchestrator sees it: it raises,
    or returns a dict whose [output_path] is set (to [str(output_path)]). *)
Definition process_contract (W : World) : Prop :=
  forall raw t o tr,
    match w_process W raw t o tr with
    | Ret (PDict d) => exists p, dict_get d "output_path" = Some p /\ py_truthy p = true
    | Ret _ => False
    | Exn _ => True
    end.

(** [section not in cfg] for a mapping [cfg]. *)
Definition absent_in (d : list (string * pyval)) (sk : string * list string) : bool :=
  match dict_get d (fst sk) with Some _ => false | None => true end.

(** A library record of the brief [brief]: a mapping with the brief and a
    string prompt. *)
Definition brief_record (brief : string) (r : pyval) : Prop :=
  exists d, r = PDict d /\ dict_get d "brief" = Some (PStr brief) /\
            exists prompt, dict_get d "prompt" = Some (PStr prompt).

(** * Theorems *)

(** ** Loudness engine *)

Section LoudnessProofs.
Variable B : AudioBackend.

Lemma obind_ret {A C} (m : outcome A) (k : A -> outcome C) c :
  obind m k = Ret c -> exists a, m = Ret a /\ k a = Ret c.
Proof. destruct m as [a|e]; simpl; [eauto | discriminate]. Qed.

Lemma process_audio_ret raw target od ow r io :
  process_audio B raw target od ow = (Ret r, io) ->
  exists a l0 p0 gain clip na nl np,
    load_audio B raw = Ret a /\
    measure B a target = Ret (l0, p0, (gain, clip, na, nl, np)) /\
    save B na raw od ow = (Ret (output_path r), io) /\
    r = mkpresult l0 p0 target gain clip nl np (output_path r).
Proof.
  unfold process_audio.
  destruct (path_exists B raw) as [[|]|e0]; simpl; [|discriminate|discriminate].
  unfold process_try.
  destruct (obind (load_audio B raw) (fun a => measure B a target)) as
      [[[l0 p0] [[[[gain clip] na] nl] np]]|e] eqn:E.
  - destruct (obind_ret _ _ _ E) as [a [Ha Hm]].
    destruct (save B na raw od ow) as [[outp|e] io'] eqn:Hs.
    + intro H; inversion H; subst.
      exists a, l0, p0, gain, clip, na, nl, np. simpl. auto.
    + destruct e; discriminate.
  - destruct e; discriminate.
Qed.

Lemma measure_ret a target l0 p0 gain clip na nl np :
  measure B a target = Ret (l0, p0, (gain, clip, na, nl, np)) ->
  p0 = max_dBFS B a /\
  (if PrimFloat.eqb l0 neg_infinity
   then gain = 0%float /\ clip = false /\ na = a /\ nl = l0 /\ np = p0
   else (if PrimFloat.ltb 0%float (p0 + (target - l0))%float
         then clip = true /\ gain = (- p0)%float
         else clip = false /\ gain = (target - l0)%float)
        /\ na = apply_gain B a gain /\ np = max_dBFS B na).
Proof.
  unfold measure. intro H.
  destruct (obind_ret _ _ _ H) as [buf [_ H1]].
  destruct (obind_ret _ _ _ H1) as [l [_ H2]].
  destruct (obind_ret _ _ _ H2) as [[[[[g c] x] y] z] [H3 H4]].
  simpl in H4. inversion H4; subst; clear H4.
  split; [reflexivity|].
  destruct (PrimFloat.eqb l0 neg_infinity).
  - inversion H3; subst. auto.
  - unfold normalize_step in H3.
    destruct (PrimFloat.ltb 0%float (max_dBFS B a + (target - l0))%float);
      destruct (obind_ret _ _ _ H3) as [nb [_ H5]];
      destruct (obind_ret _ _ _ H5) as [nl' [_ H6]];
      inversion H6; subst; auto.
Qed.

End LoudnessProofs.

(** C1: with a loudness other than −∞, the desired gain is T − L₀; when
    P₀ + (T − L₀) > 0 the gain is clamped to exactly −P₀ and
    clipping_prevented is true, otherwise the gain is T − L₀ and
    clipping_prevented is false. *)
Theorem process_audio_gain_clamp (B : AudioBackend) raw target od ow r io :
  process_audio B raw target od ow = (Ret r, io) ->
  PrimFloat.eqb (original_lufs r) neg_infinity = false ->
  target_lufs r = target /\
  (if PrimFloat.ltb 0%float (original_peak_dbfs r + (target - original_lufs r))%float
   then clipping_prevented r = true /\ gain_applied_db r = (- original_peak_dbfs r)%float
   else clipping_prevented r = false /\ gain_applied_db r = (target - original_lufs r)%float).
Proof.
  intros H Hl.
  destruct (process_audio_ret B _ _ _ _ _ _ H)
    as [a [l0 [p0 [gain [clip [na [nl [np [_ [Hm [_ Hr]]]]]]]]]]].
  destruct (measure_ret B _ _ _ _ _ _ _ _ _ Hm) as [_ Hcase].
  rewrite Hr in Hl |- *. simpl in *. rewrite Hl in Hcase.
  split; [reflexivity|].
  destruct (PrimFloat.ltb 0%float (p0 + (target - l0))%float); tauto.
Qed.

Lemma process_audio_gain_clamp_witness :
  (process_audio demo_loud demo_raw (-18)%float None false
   = (Ret demo_loud_result, [PioExport demo_loud 5%float demo_out "wav"]) /\
   PrimFloat.eqb (original_lufs demo_loud_result) neg_infinity = false) /\
  (target_lufs demo_loud_result = (-18)%float /\
   (if PrimFloat.ltb 0%float (original_peak_dbfs demo_loud_result
                              + ((-18)%float - original_lufs demo_loud_result))%float
    then clipping_prevented demo_loud_result = true /\
         gain_applied_db demo_loud_result = (- original_peak_dbfs demo_loud_result)%float
    else clipping_prevented demo_loud_result = false /\
         gain_applied_db demo_loud_result = ((-18)%float - original_lufs demo_loud_result)%float)).
Proof.
  assert (H1 : process_audio demo_loud demo_raw (-18)%float None false
               = (Ret demo_loud_result, [PioExport demo_loud 5%float demo_out "wav"]))
    by (vm_compute; reflexivity).
  assert (H2 : PrimFloat.eqb (original_lufs demo_loud_result) neg_infinity = false)
    by (vm_compute; reflexivity).
  split; [split; assumption|].
  exact (process_audio_gain_clamp demo_loud demo_raw (-18)%float None false
           demo_loud_result _ H1 H2).
Defined.

(** C4 (as corrected): when the measured loudness is −∞ and the remaining
    steps (directory creation, export) succeed, process_audio completes with
    gain 0 and clipping_prevented false, exports the loaded audio unchanged,
    and reports normalized_lufs = original_lufs = −∞ and
    normalized_peak_dbfs = original_peak_dbfs, the decoder's peak of that
    audio. *)
Theorem process_audio_silence (B : AudioBackend) raw target od ow a buf :
  path_exists B raw = Ret true ->
  load_audio B raw = Ret a ->
  to_buffer (channels B a) (sample_width B a) (get_array_of_samples B a) = Ret buf ->
  integrated_loudness B (frame_rate B a) buf = Ret neg_infinity ->
  (forall d, mkdir B d = Ret tt) ->
  (forall p f, export B a p f = Ret tt) ->
  exists r io,
    process_audio B raw target od ow = (Ret r, io) /\
    gain_applied_db r = 0%float /\ clipping_prevented r = false /\
    original_lufs r = neg_infinity /\ normalized_lufs r = original_lufs r /\
    original_peak_dbfs r = max_dBFS B a /\
    normalized_peak_dbfs r = original_peak_dbfs r /\
    (exists p f, In (PioExport B a p f) io) /\
    (forall x p f, In (PioExport B x p f) io -> x = a).
Proof.
  intros Hex Hload Hbuf Hl Hmk Hexp.
  unfold process_audio. rewrite Hex. simpl.
  unfold process_try. rewrite Hload. simpl.
  unfold measure. rewrite Hbuf. simpl. rewrite Hl. simpl.
  unfold save.
  destruct (output_target raw od ow) as [o outp].
  destruct o as [d|]; [rewrite Hmk|]; rewrite Hexp; simpl;
    eexists; eexists; (split; [reflexivity|]); simpl;
    repeat split; auto;
    try (exists outp; eexists; simpl; auto);
    intros x p f Hin; simpl in Hin;
    repeat (destruct Hin as [Hin|Hin]; [try discriminate; inversion Hin; reflexivity|]);
    contradiction.
Qed.

Lemma process_audio_silence_witness :
  (path_exists demo_quiet demo_raw = Ret true /\
   load_audio demo_quiet demo_raw = Ret 0%float /\
   to_buffer (channels demo_quiet 0%float) (sample_width demo_quiet 0%float)
             (get_array_of_samples demo_quiet 0%float)
   = Ret (Mono (scale_samples 2 quiet_samples)) /\
   integrated_loudness demo_quiet (frame_rate demo_quiet 0%float)
                       (Mono (scale_samples 2 quiet_samples)) = Ret neg_infinity) /\
  exists r io,
    process_audio demo_quiet demo_raw (-18)%float None false = (Ret r, io) /\
    gain_applied_db r = 0%float /\ clipping_prevented r = false /\
    original_lufs r = neg_infinity /\ normalized_lufs r = original_lufs r /\
    original_peak_dbfs r = max_dBFS demo_quiet 0%float /\
    normalized_peak_dbfs r = original_peak_dbfs r /\
    (exists p f, In (PioExport demo_quiet 0%float p f) io) /\
    (forall x p f, In (PioExport demo_quiet x p f) io -> x = 0%float).
Proof.
  assert (H1 : path_exists demo_quiet demo_raw = Ret true) by reflexivity.
  assert (H2 : load_audio demo_quiet demo_raw = Ret 0%float) by (vm_compute; reflexivity).
  assert (H3 : to_buffer (channels demo_quiet 0%float) (sample_width demo_quiet 0%float)
                         (get_array_of_samples demo_quiet 0%float)
               = Ret (Mono (scale_samples 2 quiet_samples))) by reflexivity.
  assert (H4 : integrated_loudness demo_quiet (frame_rate demo_quiet 0%float)
                 (Mono (scale_samples 2 quiet_samples)) = Ret neg_infinity) by reflexivity.
  split; [auto|].
  exact (process_audio_silence demo_quiet demo_raw (-18)%float None false 0%float _
           H1 H2 H3 H4 (fun _ => eq_refl) (fun _ _ => eq_refl)).
Defined.

(** C4 counterexample: a clip whose loudness pyloudnorm reports as −∞ while
    its samples are not all zero keeps its finite peak: normalized_peak_dbfs
    is about −90.3 dBFS, not −∞. *)
Lemma process_audio_silence_peak_cex :
  match process_audio demo_quiet demo_raw (-18)%float None false with
  | (Ret r, _) =>
      PrimFloat.eqb (original_lufs r) neg_infinity = true /\
      PrimFloat.eqb (normalized_peak_dbfs r) neg_infinity = false
  | (Exn _, _) => False
  end.
Proof. vm_compute. split; reflexivity. Qed.

(** C8 (as corrected): zero reported channels make process_audio fail with
    a PostProcessingError carrying the zero-channel message. Every other
    failure of the [try:] body surfaces as the same PostProcessingError
    class: a decode failure, any other error of [AudioSegment.from_file],
    and any unexpected error that is neither a FileNotFoundError nor a
    PostProcessingError; a raw file that does not exist raises
    FileNotFoundError. There is no separate class per failure kind, only
    the message differs. *)
Theorem process_audio_zero_channels (B : AudioBackend) raw target od ow a0 :
  path_exists B raw = Ret true ->
  from_file B raw = Ret a0 ->
  channels B a0 = 0%Z ->
  process_audio B raw target od ow
  = (Exn (PostProcessingError "Audio file has 0 channels."), []) /\
  (forall (B' : AudioBackend) raw' m,
     path_exists B' raw' = Ret true ->
     from_file B' raw' = Exn (CouldntDecodeError m) ->
     process_audio B' raw' target od ow
     = (Exn (PostProcessingError "Failed to decode audio file. Ensure it's a valid format and ffmpeg is installed."), [])) /\
  (forall (B' : AudioBackend) raw' e,
     path_exists B' raw' = Ret true ->
     from_file B' raw' = Exn e ->
     (forall m, e <> CouldntDecodeError m) ->
     process_audio B' raw' target od ow
     = (Exn (PostProcessingError "Error loading audio file"), [])) /\
  (forall (B' : AudioBackend) raw' e io,
     path_exists B' raw' = Ret true ->
     process_try B' raw' target od ow = (Exn e, io) ->
     (forall m, e <> FileNotFoundError m) ->
     (forall m, e <> PostProcessingError m) ->
     process_audio B' raw' target od ow
     = (Exn (PostProcessingError "Unexpected error during processing"), io)) /\
  (forall (B' : AudioBackend) raw',
     path_exists B' raw' = Ret false ->
     process_audio B' raw' target od ow
     = (Exn (FileNotFoundError "Raw audio file not found"), [])).
Proof.
  intros Hex Hf Hc. split; [|split; [|split; [|split]]].
  - unfold process_audio. rewrite Hex.
    unfold process_try, load_audio. rewrite Hf. simpl. rewrite Hc. reflexivity.
  - intros B' raw' m Hex' Hd.
    unfold process_audio. rewrite Hex'.
    unfold process_try, load_audio. rewrite Hd. reflexivity.
  - intros B' raw' e Hex' Hd Hne.
    unfold process_audio. rewrite Hex'.
    unfold process_try, load_audio. rewrite Hd.
    destruct e; try reflexivity. exfalso. exact (Hne m eq_refl).
  - intros B' raw' e io Hex' Ht Hnf Hnp.
    unfold process_audio. rewrite Hex', Ht.
    destruct e; try reflexivity.
    + exfalso. exact (Hnf m eq_refl).
    + exfalso. exact (Hnp m eq_refl).
  - intros B' raw' Hex'. unfold process_audio. rewrite Hex'. reflexivity.
Qed.

Lemma process_audio_zero_channels_witness :
  (path_exists demo_no_channels demo_raw = Ret true /\
   from_file demo_no_channels demo_raw = Ret 0%float /\
   channels demo_no_channels 0%float = 0%Z) /\
  process_audio demo_no_channels demo_raw (-18)%float None false
  = (Exn (PostProcessingError "Audio file has 0 channels."), []).
Proof.
  split; [repeat split; reflexivity|].
  exact (proj1 (process_audio_zero_channels demo_no_channels demo_raw (-18)%float None false
                  0%float eq_refl eq_refl eq_refl)).
Defined.

(** C8 counterexample: the zero-channel failure and a decode failure raise
    exceptions of one and the same class, so no type tells them apart. *)
Lemma process_audio_zero_channels_cex :
  match fst (process_audio demo_no_channels demo_raw (-18)%float None false),
        fst (process_audio demo_undecodable demo_raw (-18)%float None false) with
  | Exn e1, Exn e2 => exc_class e1 = exc_class e2 /\ e1 <> e2
  | _, _ => False
  end.
Proof. vm_compute. split; [reflexivity | discriminate]. Qed.

Lemma scale_samples_1 xs :
  scale_samples 1 xs = map (fun x => (inject_Z x / inject_Z (2 ^ 8)) * 2 - 1) xs.
Proof. reflexivity. Qed.

(** C9 (code bug): pydub hands out 8-bit samples as signed bytes, -128 to
    127 ([array('b')]; it converts the unsigned bytes of an 8-bit WAV file
    with [audioop.bias(data, 1, -128)]). The code scales them as if they
    were unsigned, [(s / 2^8) * 2 - 1 = (s - 128) / 128], so every 8-bit
    sample lands in [-2, -1/128]: nothing reaches the upper half of
    [-1, 1], silence (0) becomes -1, and the most negative sample becomes
    -2, outside [-1, 1]. *)
Theorem scale_samples_s8 xs :
  Forall (fun x => -128 <= x <= 127)%Z xs ->
  Forall2 (fun x q => q == inject_Z (x - 128) / 128 /\ -2 <= q <= -(1 # 128))%Q
          xs (scale_samples 1 xs).
Proof.
  rewrite scale_samples_1. induction 1 as [|x xs Hx _ IH]; simpl; constructor; [|exact IH].
  unfold Qeq, Qle, Qminus, Qplus, Qmult, Qdiv, Qinv, Qopp, inject_Z. simpl.
  split; [|split]; lia.
Qed.

Lemma scale_samples_s8_witness :
  Forall (fun x => -128 <= x <= 127)%Z [0; 127; -128]%Z /\
  Forall2 (fun x q => q == inject_Z (x - 128) / 128 /\ -2 <= q <= -(1 # 128))%Q
          [0; 127; -128]%Z (scale_samples 1 [0; 127; -128]%Z).
Proof.
  assert (H : Forall (fun x => -128 <= x <= 127)%Z [0; 127; -128]%Z)
    by (repeat constructor; lia).
  split; [exact H | exact (scale_samples_s8 _ H)].
Defined.

(** ** Orchestrator: calls appended to the trace *)


Lemma ext_refl P s : ext P s s.
Proof. exists []. rewrite app_nil_r. auto. Qed.

Lemma ext_trans P s1 s2 s3 : ext P s1 s2 -> ext P s2 s3 -> ext P s1 s3.
Proof.
  intros [n1 [H1 F1]] [n2 [H2 F2]]. exists (n1 ++ n2)%list.
  rewrite H2, H1, app_assoc. split; [reflexivity|]. apply Forall_app; auto.
Qed.

Lemma ext_same_trace P s s' : trace s' = trace s -> ext P s s'.
Proof. intro H. exists []. rewrite app_nil_r. auto. Qed.

Lemma pres_ret {A} P (a : A) : Preserves P (mret a).
Proof. intro s. apply ext_refl. Qed.

Lemma pres_raise {A} P e : Preserves P (@mraise A e).
Proof. intro s. apply ext_refl. Qed.

Lemma pres_lift {A} P (o : outcome A) : Preserves P (mlift o).
Proof. intro s. apply ext_refl. Qed.

Lemma pres_push_error P m : Preserves P (push_error m).
Proof. intro s. apply ext_same_trace. reflexivity. Qed.

Lemma pres_push_processed P p : Preserves P (push_processed p).
Proof. intro s. apply ext_same_trace. reflexivity. Qed.

Lemma pres_push_record P r : Preserves P (push_record r).
Proof. intro s. apply ext_same_trace. reflexivity. Qed.

Lemma pres_set_raw P r : Preserves P (set_raw r).
Proof. intro s. apply ext_same_trace. reflexivity. Qed.

Lemma pres_call {A} (P : event -> Prop) ev (ans : list event -> outcome A) :
  P ev -> Preserves P (call ev ans).
Proof. intros Hp s. exists [ev]. simpl. auto. Qed.

Lemma pres_bind {A C} P (Q : A -> Prop) (m : M A) (k : A -> M C) :
  Preserves P m -> Returns Q m -> (forall a, Q a -> Preserves P (k a)) ->
  Preserves P (mbind m k).
Proof.
  intros Hm Hq Hk s. unfold mbind.
  pose proof (Hm s) as E1.
  destruct (m s) as [[a|e] s1] eqn:E; simpl in *; [|exact E1].
  apply ext_trans with s1; [exact E1|]. apply Hk. eapply Hq. exact E.
Qed.

Lemma pres_bind' {A C} P (m : M A) (k : A -> M C) :
  Preserves P m -> (forall a, Preserves P (k a)) -> Preserves P (mbind m k).
Proof.
  intros Hm Hk. apply (pres_bind P (fun _ => True)); auto.
  intros s a s' _. exact I.
Qed.

Lemma pres_try {A} P (m : M A) (h : exc -> M A) :
  Preserves P m -> (forall e, Preserves P (h e)) -> Preserves P (mtry m h).
Proof.
  intros Hm Hh s. unfold mtry.
  pose proof (Hm s) as E1.
  destruct (m s) as [[a|e] s1] eqn:E; simpl in *; [exact E1|].
  apply ext_trans with s1; [exact E1|]. apply Hh.
Qed.

Lemma returns_lift {A} (o : outcome A) : Returns (fun a => o = Ret a) (mlift o).
Proof. intros s a s' H. inversion H. reflexivity. Qed.

Lemma returns_call_pure {A} ev (c : outcome A) :
  Returns (fun a => c = Ret a) (call ev (fun _ => c)).
Proof. intros s a s' H. inversion H. reflexivity. Qed.

Lemma pres_variation_except P i e : Preserves P (variation_except i e).
Proof.
  intro s. unfold variation_except.
  destruct e; apply ext_same_trace; reflexivity.
Qed.

Create HintDb trace.
#[local] Hint Resolve pres_ret pres_raise pres_lift pres_push_error pres_push_processed
  pres_push_record pres_set_raw pres_variation_except : trace.

Ltac pres_steps :=
  repeat first
    [ apply pres_bind'; [|intro]
    | match goal with |- Preserves _ (if ?b then _ else _) => destruct b end
    | apply pres_try; [|intro]
    | solve [auto with trace]
    | apply pres_call; solve [eauto] ].

(** ** Dict lemmas *)

Lemma dict_get_set_same d k v : dict_get (dict_set d k v) k = Some v.
Proof.
  induction d as [|[k' v'] d IH]; simpl.
  - rewrite String.eqb_refl. reflexivity.
  - destruct (String.eqb k' k) eqn:E; simpl; rewrite E; [reflexivity | exact IH].
Qed.

Lemma dict_get_set_other d k k' v :
  k' <> k -> dict_get (dict_set d k v) k' = dict_get d k'.
Proof.
  intro Hne. induction d as [|[k0 v0] d IH]; simpl.
  - destruct (String.eqb k k') eqn:E; [|reflexivity].
    apply String.eqb_eq in E. congruence.
  - destruct (String.eqb k0 k) eqn:E; simpl.
    + apply String.eqb_eq in E. subst k0.
      destruct (String.eqb k k') eqn:E'; [apply String.eqb_eq in E'; congruence | reflexivity].
    + destruct (String.eqb k0 k'); [reflexivity | exact IH].
Qed.

Section RunnerProofs.
Variable fos : string -> option float.
Variable fmt : string -> list (string * pyval) -> outcome string.
Variable pr : string -> string -> string.
Variable W : World.

Lemma compose_prompt_congr d1 d2 t :
  (forall k, k <> "prompt_influence" -> dict_get d1 k = dict_get d2 k) ->
  compose_prompt fmt (PDict d1) t = compose_prompt fmt (PDict d2) t.
Proof.
  intro H. unfold compose_prompt, py_getitem.
  rewrite (H "source"), (H "timbre"), (H "dynamics"), (H "duration"),
          (H "pitch"), (H "space"), (H "analogy") by discriminate.
  reflexivity.
Qed.

Lemma pres_variation_try P brief cfg sp dur i :
  (forall params, P (EvCompose params)) ->
  (forall params p, iter_params sp i dur = Ret params ->
     compose_prompt fmt params None = Ret p -> P (EvGenerate p dur i)) ->
  (forall raw t o, P (EvProcess raw t o)) ->
  Preserves P (variation_try fos fmt pr W brief cfg sp dur i).
Proof.
  intros Hc Hg Hp. unfold variation_try.
  apply (pres_bind P (fun params => iter_params sp i dur = Ret params));
    [apply pres_lift | apply returns_lift |].
  intros params Hpar.
  apply (pres_bind P (fun p => compose_prompt fmt params None = Ret p));
    [apply pres_call; auto | apply returns_call_pure |].
  intros p Hpr.
  pres_steps; eauto.
Qed.

Lemma pres_variation P brief cfg sp dur i :
  (forall params, P (EvCompose params)) ->
  (forall params p, iter_params sp i dur = Ret params ->
     compose_prompt fmt params None = Ret p -> P (EvGenerate p dur i)) ->
  (forall raw t o, P (EvProcess raw t o)) ->
  Preserves P (variation fos fmt pr W brief cfg sp dur i).
Proof.
  intros Hc Hg Hp. unfold variation.
  apply pres_bind'; [apply pres_set_raw|]. intros _.
  apply pres_try; [apply pres_variation_try; eauto | intro; apply pres_variation_except].
Qed.

Lemma pres_run_variations P brief cfg sp dur infls :
  (forall params, P (EvCompose params)) ->
  (forall i params p, iter_params sp i dur = Ret params ->
     compose_prompt fmt params None = Ret p -> P (EvGenerate p dur i)) ->
  (forall raw t o, P (EvProcess raw t o)) ->
  Preserves P (run_variations fos fmt pr W brief cfg sp dur infls).
Proof.
  intros Hc Hg Hp. induction infls as [|i rest IH]; simpl.
  - apply pres_ret.
  - apply pres_bind'; [apply pres_variation; eauto | intros; exact IH].
Qed.

Hypothesis Hproc : process_contract W.

(** One [try:] suite either returns, after one success, or raises having
    left the processed paths, the records and the errors as they were. *)
Lemma variation_try_cases brief cfg sp dur i s :
  match variation_try fos fmt pr W brief cfg sp dur i s with
  | (Ret _, s') =>
      exists p r res prompt raw,
        processed_files s' = (processed_files s ++ [p])%list /\
        results_for_library s' = (results_for_library s ++ [r])%list /\
        errors s' = errors s /\
        library_entry res brief prompt raw = Ret r
  | (Exn _, s') =>
      processed_files s' = processed_files s /\
      results_for_library s' = results_for_library s /\
      errors s' = errors s
  end.
Proof.
  unfold variation_try, mbind, mlift, call, set_raw, push_processed, push_record, push_error.
  destruct (iter_params sp i dur) as [params|e]; [|auto].
  destruct (compose_prompt fmt params None) as [prompt|e]; [|auto].
  simpl.
  destruct (w_generate W prompt dur i cfg _) as [raw|e]; [|auto].
  destruct (cfg_target_lufs fos cfg) as [t|e]; [|auto].
  destruct (output_folder pr cfg) as [od|e]; [|auto].
  simpl.
  pose proof (Hproc raw t od (trace s ++ [EvCompose params] ++ [EvGenerate prompt dur i])%list) as Hc.
  rewrite <- !app_assoc in *. simpl in *.
  destruct (w_process W raw t od _) as [res|e]; [|auto].
  destruct res as [| | | | | | |d]; try contradiction.
  destruct Hc as [p [Hp Ht]].
  simpl. rewrite Hp. simpl. rewrite Ht. simpl.
  eexists p, _, (PDict d), prompt, raw. simpl.
  repeat split; reflexivity.
Qed.

Lemma variation_holds brief cfg sp dur i s :
  fst (variation fos fmt pr W brief cfg sp dur i s) = Ret tt /\
  ext no_lib s (snd (variation fos fmt pr W brief cfg sp dur i s)) /\
  exists o, variation_spec brief i s (snd (variation fos fmt pr W brief cfg sp dur i s)) o.
Proof.
  split; [|split].
  - unfold variation, mbind, mtry. simpl.
    destruct (variation_try fos fmt pr W brief cfg sp dur i _) as [[[]|e] s']; [reflexivity|].
    unfold variation_except. destruct e; reflexivity.
  - apply pres_variation; intros; exact I.
  - unfold variation, mbind, mtry. simpl.
    match goal with |- context [variation_try fos fmt pr W brief cfg sp dur i ?s0] =>
      pose proof (variation_try_cases brief cfg sp dur i s0) as H;
      destruct (variation_try fos fmt pr W brief cfg sp dur i s0) as [[[]|e] s'] end.
    + destruct H as [p [r [res [prompt [raw [H1 [H2 [H3 H4]]]]]]]].
      exists (Some r). simpl in *. econstructor; eauto.
    + destruct H as [H1 [H2 H3]]. simpl in *. exists None.
      unfold variation_except. destruct e; simpl; econstructor; simpl;
        try rewrite H1; try rewrite H2; try rewrite H3; reflexivity.
Qed.

Lemma run_variations_holds brief cfg sp dur infls s :
  fst (run_variations fos fmt pr W brief cfg sp dur infls s) = Ret tt /\
  ext no_lib s (snd (run_variations fos fmt pr W brief cfg sp dur infls s)) /\
  exists recs, loop_spec brief infls s (snd (run_variations fos fmt pr W brief cfg sp dur infls s)) recs.
Proof.
  revert s. induction infls as [|i rest IH]; intro s; simpl.
  - split; [reflexivity|]. split; [apply ext_refl|]. exists []. constructor.
  - destruct (variation_holds brief cfg sp dur i s) as [H1 [H2 [o H3]]].
    unfold mbind. destruct (variation fos fmt pr W brief cfg sp dur i s) as [o1 s1].
    simpl in *. subst o1.
    destruct (IH s1) as [J1 [J2 [recs J3]]].
    split; [exact J1|]. split; [eapply ext_trans; eauto|].
    exists (opt_list o ++ recs)%list. econstructor; eauto.
Qed.

Lemma store_results_holds brief cfg lp s :
  library_path pr cfg = Ret lp ->
  fst (store_results pr W brief cfg s) = Ret tt /\
  processed_files (snd (store_results pr W brief cfg s)) = processed_files s /\
  (results_for_library s = [] -> snd (store_results pr W brief cfg s) = s) /\
  (results_for_library s <> [] ->
     trace (snd (store_results pr W brief cfg s))
       = (trace s ++ [EvLibrary brief (results_for_library s) lp])%list /\
     (errors (snd (store_results pr W brief cfg s)) = errors s \/
      exists e, errors (snd (store_results pr W brief cfg s)) = (errors s ++ [MsgLibrary lp e])%list)).
Proof.
  intro Hlp. unfold store_results.
  destruct (results_for_library s) as [|r0 rs] eqn:Er.
  - simpl. split; [reflexivity|]. split; [reflexivity|]. split; [reflexivity|]. intro H; congruence.
  - unfold mtry, mbind, mlift, call, mret. rewrite Hlp. simpl.
    destruct (w_add_library W brief (r0 :: rs) lp (trace s)) as [v|e]; simpl.
    + split; [reflexivity|]. split; [reflexivity|]. split; [discriminate|].
      intros _. split; [reflexivity | left; reflexivity].
    + split; [reflexivity|]. split; [reflexivity|]. split; [discriminate|].
      intros _. split; [reflexivity | right; exists e; reflexivity].
Qed.

End RunnerProofs.

Lemma loop_spec_counts brief infls s s' recs :
  loop_spec brief infls s s' recs ->
  results_for_library s' = (results_for_library s ++ recs)%list /\
  length (processed_files s') = (length (processed_files s) + length recs)%nat.
Proof.
  induction 1 as [s|i rest s s1 s2 o recs Hv Hl [IH1 IH2]].
  - split; [rewrite app_nil_r; reflexivity | simpl; lia].
  - inversion Hv; subst; simpl in *.
    + rewrite IH1, IH2, H0, H. rewrite <- app_assoc, length_app. simpl.
      split; [reflexivity | lia].
    + rewrite IH1, IH2, H0, H. split; reflexivity.
Qed.

(** C10: compose_prompt never reads prompt_influence: two parameter
    mappings that differ only there give the same result (with the default
    template and with any other). Consequently every generator call of one
    variation loop receives the same prompt text, the composition of the
    structured parameters with the resolved duration; the variations differ
    only in the influence passed next to it. *)
Theorem compose_prompt_ignores_influence :
  (forall fmt d v1 v2 template,
     compose_prompt fmt (PDict (dict_set d "prompt_influence" v1)) template =
     compose_prompt fmt (PDict (dict_set d "prompt_influence" v2)) template) /\
  (forall fos fmt pr W brief cfg d duration infls s,
     ext (fun ev => match ev with
                    | EvGenerate p _ _ =>
                        compose_prompt fmt (PDict (dict_set d "duration" (PFloat duration))) None = Ret p
                    | _ => True
                    end)
         s (snd (run_variations fos fmt pr W brief cfg (PDict d) duration infls s))).
Proof.
  split.
  - intros fmt d v1 v2 t. apply compose_prompt_congr.
    intros k Hk. rewrite !dict_get_set_other by exact Hk. reflexivity.
  - intros fos fmt pr W brief cfg d duration infls s.
    apply pres_run_variations; try (intros; exact I).
    intros i params p Hpar Hc. simpl in Hpar. inversion Hpar; subst params.
    rewrite <- Hc. apply compose_prompt_congr.
    intros k Hk. destruct (String.eqb k "duration") eqn:E.
    + apply String.eqb_eq in E. subst k. rewrite !dict_get_set_same. reflexivity.
    + apply String.eqb_neq in E.
      rewrite !dict_get_set_other by assumption. reflexivity.
Qed.

(** C2: given a [process_audio] that raises or returns its result dict,
    a configured library path [lp], and no records collected before the
    loop: every influence value is attempted in order, and each variation
    either succeeds (one processed path, one library record) or fails
    leaving exactly one error message that names its influence value; the
    loop makes no library call; afterwards [add_to_library] is called
    exactly once, with exactly the records [recs] of the successful
    variations, if there is one, and not at all otherwise. *)
Theorem variations_and_store_isolation fos fmt pr W brief cfg sp dur infls lp s0 :
  process_contract W ->
  library_path pr cfg = Ret lp ->
  results_for_library s0 = [] ->
  fst (variations_and_store fos fmt pr W brief cfg sp dur infls s0) = Ret tt /\
  exists s1 recs,
    loop_spec brief infls s0 s1 recs /\
    ext no_lib s0 s1 /\
    results_for_library s1 = recs /\
    length (processed_files (snd (variations_and_store fos fmt pr W brief cfg sp dur infls s0)))
      = (length (processed_files s0) + length recs)%nat /\
    (recs = [] -> snd (variations_and_store fos fmt pr W brief cfg sp dur infls s0) = s1) /\
    (recs <> [] ->
       trace (snd (variations_and_store fos fmt pr W brief cfg sp dur infls s0))
         = (trace s1 ++ [EvLibrary brief recs lp])%list /\
       (errors (snd (variations_and_store fos fmt pr W brief cfg sp dur infls s0)) = errors s1 \/
        exists e, errors (snd (variations_and_store fos fmt pr W brief cfg sp dur infls s0))
                    = (errors s1 ++ [MsgLibrary lp e])%list)).
Proof.
  intros Hproc Hlp H0.
  destruct (run_variations_holds fos fmt pr W Hproc brief cfg sp dur infls s0)
    as [R1 [R2 [recs R3]]].
  unfold variations_and_store, mbind.
  destruct (run_variations fos fmt pr W brief cfg sp dur infls s0) as [o1 s1].
  simpl in *. subst o1.
  destruct (loop_spec_counts _ _ _ _ _ R3) as [C1 C2].
  rewrite H0 in C1. simpl in C1.
  destruct (store_results_holds pr W brief cfg lp s1 Hlp) as [S1 [S2 [S3 S4]]].
  split; [exact S1|].
  exists s1, recs. split; [exact R3|]. split; [exact R2|]. split; [exact C1|].
  split; [rewrite S2; exact C2|].
  split.
  - intro E. apply S3. rewrite C1. exact E.
  - intro E. rewrite <- C1. apply S4. rewrite C1. exact E.
Qed.

Lemma variations_and_store_isolation_witness :
  process_contract (demo_world (demo_sp (PList [PFloat 0.3; PFloat 0.7])) 0.3) /\
  library_path demo_pr demo_cfg = Ret "lib.yml" /\
  (exists s1 recs,
     loop_spec "door slam" [0.3; 0.7]%float (init_st []) s1 recs /\
     results_for_library s1 = recs).
Proof.
  assert (Hc : process_contract (demo_world (demo_sp (PList [PFloat 0.3; PFloat 0.7])) 0.3)).
  { intros raw t o tr. simpl. exists (PStr "out/raw_norm.wav"). split; reflexivity. }
  split; [exact Hc|]. split; [reflexivity|].
  destruct (variations_and_store_isolation demo_fos demo_fmt demo_pr
              (demo_world (demo_sp (PList [PFloat 0.3; PFloat 0.7])) 0.3)
              "door slam" demo_cfg (demo_sp (PList [PFloat 0.3; PFloat 0.7])) 2 [0.3; 0.7]%float
              "lib.yml" (init_st []) Hc eq_refl eq_refl)
    as [_ [s1 [recs [H1 [_ [H3 _]]]]]].
  exists s1, recs. split; assumption.
Defined.

(** The run of the specification's example: two influence values, the
    generator fails for the first; one processed path, one error naming
    0.3, and one library call with the single successful record. *)
Lemma run_pipeline_one_failure_example :
  let r := run_pipeline demo_fos demo_fmt demo_pr
             (demo_world (demo_sp (PList [PFloat 0.3; PFloat 0.7])) 0.3) "door slam" "cfg.yml" [] in
  fst r = Ret ([PStr "out/raw_norm.wav"],
               [MsgLoop 0.3 (OtherError "ApiError: generation failed")]) /\
  filter (fun ev => match ev with EvLibrary _ _ _ => true | _ => false end) (trace (snd r))
    = [EvLibrary "door slam"
         [PDict [("output_path", PStr "out/raw_norm.wav"); ("brief", PStr "door slam");
                 ("prompt", PStr DEFAULT_TEMPLATE); ("raw_audio_path", PPath "out/raw.wav")]]
         "lib.yml"].
Proof. vm_compute. split; reflexivity. Qed.

(** ** Missing decomposer fields *)

Lemma str_prefix_app k post : str_prefix k (k ++ post) = true.
Proof.
  induction k as [|a k IH]; simpl; [reflexivity|].
  rewrite Ascii.eqb_refl. exact IH.
Qed.

Lemma str_contains_app pre k post : str_contains (pre ++ k ++ post) k = true.
Proof.
  induction pre as [|a pre IH]; simpl.
  - destruct k as [|c k]; simpl; [destruct post; reflexivity|].
    rewrite Ascii.eqb_refl, str_prefix_app. reflexivity.
  - rewrite IH. apply orb_true_r.
Qed.

Lemma str_app_nil_r (s : string) : s ++ "" = s.
Proof. induction s as [|a s IH]; simpl; [reflexivity | rewrite IH; reflexivity]. Qed.

Lemma str_app_assoc (a b c : string) : (a ++ b) ++ c = a ++ b ++ c.
Proof. induction a as [|x a IH]; simpl; [reflexivity | rewrite IH; reflexivity]. Qed.

Lemma join_In sep l x :
  In x l -> exists pre post, join sep l = pre ++ x ++ post.
Proof.
  induction l as [|y l IH]; intro H; [destruct H|].
  destruct H as [-> | H].
  - destruct l as [|z l]; simpl.
    + exists "", "". rewrite str_app_nil_r. reflexivity.
    + exists "", (sep ++ join sep (z :: l)). reflexivity.
  - destruct (IH H) as [pre [post E]].
    destruct l as [|z l]; [destruct H|].
    exists (y ++ sep ++ pre), post.
    change (join sep (y :: z :: l)) with (y ++ sep ++ join sep (z :: l)). rewrite E.
    rewrite !str_app_assoc. reflexivity.
Qed.

Lemma pylist_repr_mentions ks k :
  In k ks -> exists pre post, pylist_repr ks = pre ++ k ++ post.
Proof.
  intro H. unfold pylist_repr.
  destruct (join_In ", " (map (fun k => "'" ++ k ++ "'") ks) ("'" ++ k ++ "'"))
    as [pre [post E]].
  { apply in_map_iff. exists k. auto. }
  rewrite E. exists ("[" ++ pre ++ "'"), ("'" ++ post ++ "]").
  rewrite !str_app_assoc. reflexivity.
Qed.

Lemma missing_keys_dict d ks :
  missing_keys (PDict d) ks =
  Ret (filter (fun k => match dict_get d k with Some _ => false | None => true end) ks).
Proof.
  induction ks as [|k ks IH]; simpl; [reflexivity|].
  rewrite IH. simpl. destruct (dict_get d k); reflexivity.
Qed.

(** C3: when the configuration loads and the decomposer returns a mapping
    [d] that lacks one of the six prompt fields, the run returns no
    successes and exactly one error, the DecomposerError whose message
    lists exactly the missing fields (each one appears in it), and the
    only call it makes is the one to the decomposer: the composer and the
    generator are never called. *)
Theorem run_pipeline_missing_keys fos fmt pr W brief path before cfg d :
  config_init fos (w_config W) path = Ret cfg ->
  w_decompose W brief before = Ret (PDict d) ->
  (exists k, In k REQUIRED_DECOMPOSER_KEYS_FOR_PROMPT /\ dict_get d k = None) ->
  exists ks m s',
    run_pipeline fos fmt pr W brief path before
      = (Ret ([], [MsgDecompose (DecomposerError m)]), s') /\
    ks <> [] /\
    (forall k, In k ks <-> In k REQUIRED_DECOMPOSER_KEYS_FOR_PROMPT /\ dict_get d k = None) /\
    m = "Decomposer output missing required keys for prompt: " ++ pylist_repr ks /\
    (forall k, In k ks -> str_contains m k = true) /\
    trace s' = (before ++ [EvDecompose brief])%list.
Proof.
  intros Hcfg Hdec [k0 [Hk0 Hd0]].
  set (ks := filter (fun k => match dict_get d k with Some _ => false | None => true end)
                    REQUIRED_DECOMPOSER_KEYS_FOR_PROMPT).
  assert (Hks : forall k, In k ks <-> In k REQUIRED_DECOMPOSER_KEYS_FOR_PROMPT /\ dict_get d k = None).
  { intro k. unfold ks. rewrite filter_In.
    destruct (dict_get d k); split; intros [H1 H2]; split; auto; discriminate. }
  assert (Hne : ks <> []).
  { intro E. assert (H : In k0 ks) by (apply Hks; auto). rewrite E in H. destruct H. }
  set (m := "Decomposer output missing required keys for prompt: " ++ pylist_repr ks).
  assert (Hm : forall k, In k ks -> str_contains m k = true).
  { intros k Hk. destruct (pylist_repr_mentions ks k Hk) as [pre [post E]].
    pose proof (str_contains_app ("Decomposer output missing required keys for prompt: " ++ pre) k post) as H.
    rewrite str_app_assoc in H. unfold m. rewrite E. exact H. }
  exists ks, m.
  unfold run_pipeline, run_sfx_pipeline, mbind. rewrite Hcfg.
  unfold pipeline_body, mtry, mbind, decompose_step, mtry, mbind, call, mlift.
  cbn [trace init_st]. rewrite Hdec, missing_keys_dict. fold ks.
  destruct ks as [|k1 ks'] eqn:Eks; [congruence|].
  simpl. eexists. split; [reflexivity|].
  split; [exact Hne|]. split; [exact Hks|]. split; [reflexivity|]. split; [|reflexivity].
  exact Hm.
Qed.

Lemma run_pipeline_missing_keys_witness :
  config_init demo_fos demo_files "cfg.yml" = Ret demo_cfg /\
  exists ks m s',
    run_pipeline demo_fos demo_fmt demo_pr (demo_world (PDict demo_partial) 0.3)
      "door slam" "cfg.yml" [] = (Ret ([], [MsgDecompose (DecomposerError m)]), s') /\
    ks <> [] /\ (forall k, In k ks -> str_contains m k = true).
Proof.
  assert (Hc : config_init demo_fos demo_files "cfg.yml" = Ret demo_cfg) by reflexivity.
  assert (Ha : In "analogy" REQUIRED_DECOMPOSER_KEYS_FOR_PROMPT /\ dict_get demo_partial "analogy" = None).
  { split; [simpl; tauto | reflexivity]. }
  split; [exact Hc|].
  destruct (run_pipeline_missing_keys demo_fos demo_fmt demo_pr (demo_world (PDict demo_partial) 0.3)
              "door slam" "cfg.yml" [] demo_cfg demo_partial Hc eq_refl (ex_intro _ "analogy" Ha))
    as [ks [m [s' [H1 [H2 [_ [_ [H5 _]]]]]]]].
  exists ks, m, s'. split; [exact H1|]. split; assumption.
Defined.

(** ** Malformed configuration files *)

(** C5 fails: a configuration file whose YAML document is an integer makes
    [section not in self._cfg] in [Config._validate] raise TypeError, which
    is neither FileNotFoundError nor ConfigError: it escapes the
    configuration [except] and [run_sfx_pipeline] itself raises, after
    making no call at all. *)
Theorem run_pipeline_int_config_raises fos fmt pr W brief path before z :
  w_config W (if String.eqb path "" then "configs/sfx_agent.yml" else path) = Some (Some (PInt z)) ->
  fst (run_pipeline fos fmt pr W brief path before)
    = Exn (TypeError "argument of type 'int' is not iterable") /\
  snd (run_pipeline fos fmt pr W brief path before) = init_st before.
Proof.
  intro H. unfold run_pipeline, run_sfx_pipeline, mbind, config_init.
  rewrite H. simpl. split; reflexivity.
Qed.

Lemma run_pipeline_int_config_raises_witness :
  demo_files "int.yml" = Some (Some (PInt 42)) /\
  fst (run_pipeline demo_fos demo_fmt demo_pr (demo_world (PDict demo_partial) 0.3)
         "door slam" "int.yml" [])
    = Exn (TypeError "argument of type 'int' is not iterable").
Proof.
  split; [reflexivity|].
  exact (proj1 (run_pipeline_int_config_raises demo_fos demo_fmt demo_pr
                  (demo_world (PDict demo_partial) 0.3) "door slam" "int.yml" [] 42 eq_refl)).
Defined.

(** ** Decomposer influence values that float() rejects with OverflowError *)

Lemma filter_none_missing d ks :
  Forall (fun k => dict_get d k <> None) ks ->
  filter (fun k => match dict_get d k with Some _ => false | None => true end) ks = [].
Proof.
  induction 1 as [|k ks Hk _ IH]; simpl; [reflexivity|].
  destruct (dict_get d k); [exact IH | congruence].
Qed.

(** C7 fails: a decomposer [batch_influences] list whose first element is an
    int too large for a float (JSON allows [10**400]) makes [float(inf)]
    raise OverflowError, which the [except (ValueError, TypeError)] does not
    catch. There is no fallback to the configured list: the outer handler
    appends one "Unhandled exception" message, no variation is attempted
    and the only call made is the decomposer's. *)
Theorem run_pipeline_influence_overflow fos fmt pr W brief path before cfg d dur l0 z rest :
  config_init fos (w_config W) path = Ret cfg ->
  w_decompose W brief before = Ret (PDict d) ->
  Forall (fun k => dict_get d k <> None) REQUIRED_DECOMPOSER_KEYS_FOR_PROMPT ->
  resolve_duration fos cfg (PDict d) = Ret dur ->
  batch_influences fos cfg = Ret l0 ->
  dict_get d "batch_influences" = Some (PList (PInt z :: rest)) ->
  (float_int_limit <= Z.abs z)%Z ->
  exists s',
    run_pipeline fos fmt pr W brief path before
      = (Ret ([], [MsgUnhandled (OverflowError "int too large to convert to float")]), s') /\
    trace s' = (before ++ [EvDecompose brief])%list.
Proof.
  intros Hcfg Hdec Hkeys Hdur Hbi Hget Hz.
  unfold run_pipeline, run_sfx_pipeline, mbind. rewrite Hcfg.
  unfold pipeline_body, mtry, mbind, decompose_step, mtry, mbind, call, mlift.
  cbn [trace init_st]. rewrite Hdec, missing_keys_dict, (filter_none_missing _ _ Hkeys).
  simpl. rewrite Hdur.
  unfold resolve_influences, cfg_influences_value, py_get. rewrite Hbi. simpl.
  rewrite Hget. simpl.
  apply Z.leb_le in Hz. rewrite Hz. simpl.
  eexists. split; reflexivity.
Qed.

Lemma run_pipeline_influence_overflow_witness :
  exists s',
    run_pipeline demo_fos demo_fmt demo_pr
      (demo_world (demo_sp (PList [PInt (10 ^ 400)%Z])) 0.3) "door slam" "cfg.yml" []
      = (Ret ([], [MsgUnhandled (OverflowError "int too large to convert to float")]), s') /\
    trace s' = [EvDecompose "door slam"].
Proof.
  eapply (run_pipeline_influence_overflow demo_fos demo_fmt demo_pr
           (demo_world (demo_sp (PList [PInt (10 ^ 400)%Z])) 0.3) "door slam" "cfg.yml" []
           demo_cfg _ 2 [0.3; 0.7]%float (10 ^ 400)%Z []).
  - reflexivity.
  - reflexivity.
  - repeat constructor; discriminate.
  - reflexivity.
  - reflexivity.
  - reflexivity.
  - vm_compute. discriminate.
Defined.

(** ** Library store *)

Lemma representable_set d k v :
  representable (PDict d) = true -> representable v = true ->
  representable (PDict (dict_set d k v)) = true.
Proof.
  simpl. intros Hd Hv. induction d as [|[k' v'] d IH]; simpl in *.
  - rewrite Hv. reflexivity.
  - apply andb_true_iff in Hd as [H1 H2].
    destruct (String.eqb k' k); simpl; rewrite ?Hv, ?H1; simpl; auto.
Qed.

Lemma representable_list l l' :
  forallb representable l = true -> Forall (fun v => representable v = true) l' ->
  representable (PList (l ++ l')) = true.
Proof.
  simpl. intros H1 H2. rewrite forallb_app, H1. simpl.
  apply forallb_forall. intros x Hx. rewrite Forall_forall in H2. auto.
Qed.

Lemma representable_get_false d k v :
  dict_get d k = Some v -> representable v = false -> representable (PDict d) = false.
Proof.
  intros Hg Hv. simpl. induction d as [|[k0 v0] d IH]; simpl in *; [discriminate|].
  destruct (String.eqb k0 k); [inversion Hg; subst; rewrite Hv; reflexivity|].
  rewrite IH by exact Hg. apply andb_false_r.
Qed.

Lemma representable_app_false l l' r :
  In r l' -> representable r = false -> representable (PList (l ++ l')) = false.
Proof.
  intros Hin Hr. simpl. rewrite forallb_app.
  destruct (forallb representable l') eqn:E; [|apply andb_false_r].
  rewrite forallb_forall in E. rewrite (E r Hin) in Hr. discriminate.
Qed.

Lemma truthy_dict d : (if py_truthy (PDict d) then PDict d else PDict []) = PDict d.
Proof. destruct d; reflexivity. Qed.

Lemma lib_path_some p :
  p <> "" -> (if String.eqb p "" then "prompt_library.yml" else p) = p.
Proof.
  intro Hp. destruct (String.eqb p "") eqn:E; [apply String.eqb_eq in E; congruence | reflexivity].
Qed.

(** C6 (code bug): when the results hold a value the safe dumper cannot
    represent, such as the [Path] in every record the runner builds, adding
    them to an existing store does not extend anything: the store, already
    truncated by [open("w")], is left empty and the call raises a
    RepresenterError. Every brief's entries are lost: read back, the store
    holds no brief, so the next addition, even of nothing under a brief
    [brief'], writes a store with [brief'] alone. *)
Theorem add_to_library_wipes_store fs brief results p d r :
  p <> "" ->
  fs p = Some (Parsed (PDict d)) ->
  (dict_get d brief = None \/ exists l, dict_get d brief = Some (PList l)) ->
  In r results -> representable r = false ->
  add_to_library fs brief results (Some p)
  = (Exn (OtherError "RepresenterError: cannot represent an object"),
     fs_write fs p (Parsed PNone)) /\
  (forall brief',
     add_to_library (fs_write fs p (Parsed PNone)) brief' [] (Some p)
     = (Ret p, fs_write (fs_write fs p (Parsed PNone)) p
                        (Parsed (PDict [(brief', PList [])])))).
Proof.
  intros Hp Hfs Hb Hin Hr. split.
  - unfold add_to_library. rewrite (lib_path_some _ Hp), Hfs. cbv match.
    rewrite truthy_dict. cbv match.
    destruct Hb as [Hg | [l Hg]]; rewrite Hg; cbv match zeta beta.
    + rewrite (representable_get_false _ brief _ (dict_get_set_same _ _ _)
                 (representable_app_false [] _ _ Hin Hr)).
      reflexivity.
    + rewrite (representable_get_false _ brief _ (dict_get_set_same _ _ _)
                 (representable_app_false l _ _ Hin Hr)).
      reflexivity.
  - intro brief'.
    assert (E : fs_write fs p (Parsed PNone) p = Some (Parsed PNone)).
    { unfold fs_write. rewrite String.eqb_refl. reflexivity. }
    unfold add_to_library. rewrite (lib_path_some _ Hp), E. cbn.
    rewrite String.eqb_refl. reflexivity.
Qed.

Lemma add_to_library_wipes_store_witness :
  let a := PDict [("path", PStr "a.wav")] in
  let r := PDict [("output_path", PPath "out/raw_norm.wav"); ("brief", PStr "X");
                  ("prompt", PStr "p"); ("raw_audio_path", PPath "out/raw.wav")] in
  ("lib.yml" <> "" /\
   demo_store "lib.yml" = Some (Parsed (PDict [("X", PList [a])])) /\
   (dict_get [("X", PList [a])] "X" = None \/
    exists l, dict_get [("X", PList [a])] "X" = Some (PList l)) /\
   In r [r] /\ representable r = false) /\
  add_to_library demo_store "X" [r] (Some "lib.yml")
  = (Exn (OtherError "RepresenterError: cannot represent an object"),
     fs_write demo_store "lib.yml" (Parsed PNone)).
Proof.
  intros a r.
  assert (H1 : "lib.yml" <> "") by discriminate.
  assert (H2 : demo_store "lib.yml" = Some (Parsed (PDict [("X", PList [a])]))) by reflexivity.
  assert (H3 : dict_get [("X", PList [a])] "X" = None \/
               exists l, dict_get [("X", PList [a])] "X" = Some (PList l))
    by (right; eexists; reflexivity).
  assert (H4 : In r [r]) by (left; reflexivity).
  assert (H5 : representable r = false) by reflexivity.
  split; [repeat split; assumption|].
  exact (proj1 (add_to_library_wipes_store demo_store "X" [r] "lib.yml" _ r H1 H2 H3 H4 H5)).
Defined.

(** * Further properties of the code *)

(** ** Loudness engine *)

(** Apart from an error of the existence check itself ([Path.exists]
    re-raises an OSError such as PermissionError), [process_audio] raises
    only FileNotFoundError or PostProcessingError, for every backend and
    every input; a raw file that does not exist is reported before anything
    is decoded, created or written. *)
Theorem process_audio_raises_only (B : AudioBackend) raw target od ow :
  match fst (process_audio B raw target od ow) with
  | Ret _ => True
  | Exn e => (exists m, e = FileNotFoundError m) \/ (exists m, e = PostProcessingError m)
             \/ path_exists B raw = Exn e
  end /\
  (path_exists B raw = Ret false ->
   process_audio B raw target od ow = (Exn (FileNotFoundError "Raw audio file not found"), [])).
Proof.
  unfold process_audio. split.
  - destruct (path_exists B raw) as [[|]|e0]; simpl;
      [| left; eexists; reflexivity | right; right; reflexivity].
    destruct (process_try B raw target od ow) as [[r|e] io]; simpl; [exact I|].
    destruct e; simpl; eauto.
  - intro H. rewrite H. reflexivity.
Qed.

Lemma str_length_app (s t : string) : String.length (s ++ t) = (String.length s + String.length t)%nat.
Proof. induction s as [|a s IH]; simpl; [reflexivity | rewrite IH; reflexivity]. Qed.

(** A successful [process_audio] has exported exactly once, to the path it
    reports, in the format named by the raw file's suffix (lower case,
    without the dot), after creating the output directory only when one was
    given and the original is not overwritten. The output is
    [<stem>_norm<suffix>] in the output directory or beside the raw file,
    so unless [overwrite_original] is set the raw file is never the output. *)
Theorem process_audio_saves_once (B : AudioBackend) raw target od ow r io :
  process_audio B raw target od ow = (Ret r, io) ->
  output_path r = (if ow then raw
                   else mkpath (match od with Some d => d | None => p_dir raw end)
                               (p_stem raw ++ "_norm") (p_suffix raw)) /\
  (exists na, io = ((if ow then [] else match od with Some d => [PioMkdir B d] | None => [] end)
                    ++ [PioExport B na (output_path r) (str_lower (str_tail (p_suffix raw)))])%list) /\
  (ow = false -> output_path r <> raw).
Proof.
  intro H.
  destruct (process_audio_ret B _ _ _ _ _ _ H)
    as [a [l0 [p0 [gain [clip [na [nl [np [_ [_ [Hs _]]]]]]]]]]].
  assert (Hio : output_path r = (if ow then raw
                   else mkpath (match od with Some d => d | None => p_dir raw end)
                               (p_stem raw ++ "_norm") (p_suffix raw)) /\
    exists na, io = ((if ow then [] else match od with Some d => [PioMkdir B d] | None => [] end)
                    ++ [PioExport B na (output_path r) (str_lower (str_tail (p_suffix raw)))])%list).
  { unfold save, output_target in Hs.
    destruct ow; [|destruct od as [d|]]; simpl in Hs;
      [| destruct (mkdir B d); [|discriminate] |];
      (destruct (export B na _ _); [|discriminate]);
      injection Hs as E1 E2; rewrite <- E1, <- E2;
      (split; [reflexivity | exists na; reflexivity]). }
  destruct Hio as [Ho Hio]. split; [exact Ho|]. split; [exact Hio|].
  intros Hw E. subst ow. rewrite Ho in E. apply (f_equal p_stem) in E. simpl in E.
  apply (f_equal String.length) in E. rewrite str_length_app in E. simpl in E. lia.
Qed.

Lemma process_audio_saves_once_witness :
  process_audio demo_loud demo_raw (-18)%float None false
    = (Ret demo_loud_result, [PioExport demo_loud 5%float demo_out "wav"]) /\
  output_path demo_loud_result <> demo_raw.
Proof.
  assert (H : process_audio demo_loud demo_raw (-18)%float None false
              = (Ret demo_loud_result, [PioExport demo_loud 5%float demo_out "wav"]))
    by (vm_compute; reflexivity).
  split; [exact H|].
  exact (proj2 (proj2 (process_audio_saves_once demo_loud demo_raw (-18)%float None false
                         demo_loud_result _ H)) eq_refl).
Defined.

(** ** Configuration *)

Lemma missing_sections_dict d secs :
  missing_sections (PDict d) secs = Ret (map fst (filter (absent_in d) secs)).
Proof.
  induction secs as [|[sec keys] secs IH]; simpl; [reflexivity|].
  rewrite IH. unfold absent_in. simpl. destruct (dict_get d sec); reflexivity.
Qed.

Lemma missing_sections_nil d secs :
  map fst (filter (absent_in d) secs) = [] ->
  forall sec keys, In (sec, keys) secs -> dict_get d sec <> None.
Proof.
  intros H sec keys Hin E.
  assert (Hf : In (sec, keys) (filter (absent_in d) secs)).
  { apply filter_In. split; [exact Hin|]. unfold absent_in. simpl. rewrite E. reflexivity. }
  destruct (filter (absent_in d) secs); [destruct Hf | discriminate].
Qed.

Lemma missing_entries_cases d secs :
  (forall sec keys, In (sec, keys) secs -> dict_get d sec <> None) ->
  (exists mk, missing_entries (PDict d) secs = Ret mk) \/
  (exists m, missing_entries (PDict d) secs = Exn (ConfigError m)).
Proof.
  induction secs as [|[sec keys] secs IH]; intro H; simpl; [left; eauto|].
  destruct (dict_get d sec) as [sd|] eqn:E;
    [| exfalso; apply (H sec keys); [left; reflexivity | exact E]].
  simpl. destruct sd; simpl; try (right; eexists; reflexivity).
  destruct IH as [[mk Hmk] | [m Hm]].
  - intros s k Hin. apply (H s k). right. exact Hin.
  - rewrite Hmk. left. eexists. reflexivity.
  - rewrite Hm. right. eexists. reflexivity.
Qed.

Lemma missing_entries_nil cfg secs :
  missing_entries cfg secs = Ret [] ->
  forall sec keys k, In (sec, keys) secs -> In k keys ->
  exists v, cfg_item cfg sec k = Ret v /\ v <> PNone.
Proof.
  induction secs as [|[s0 ks0] secs IH]; intros H sec keys k Hin Hk; [destruct Hin|].
  simpl in H. apply obind_ret in H as [sd [Hsd H]].
  destruct sd as [| | | | | | |sdd]; try discriminate.
  apply obind_ret in H as [rest [Hrest H]]. injection H as H.
  apply app_eq_nil in H as [Hm Hr]. subst rest.
  destruct Hin as [E | Hin]; [|exact (IH Hrest sec keys k Hin Hk)].
  injection E as -> ->.
  unfold cfg_item. rewrite Hsd. simpl.
  destruct (dict_get sdd k) as [v|] eqn:Ek.
  - exists v. split; [reflexivity|]. intro Ev. subst v.
    assert (Hin' : In (sec ++ "." ++ k) (missing_in_section sec sdd keys)).
    { unfold missing_in_section. apply in_flat_map. exists k. rewrite Ek. simpl. auto. }
    rewrite Hm in Hin'. destruct Hin'.
  - exfalso.
    assert (Hin' : In (sec ++ "." ++ k) (missing_in_section sec sdd keys)).
    { unfold missing_in_section. apply in_flat_map. exists k. rewrite Ek. simpl. auto. }
    rewrite Hm in Hin'. destruct Hin'.
Qed.


(** For a config file holding a YAML mapping, [Config(path)] either loads
    or raises ConfigError: a missing section, a section that is not a
    mapping, a missing or null entry, a bad number or batch list, and a
    non-string library path or log level all end in ConfigError. *)
Theorem config_init_dict_errors fos files path d :
  files (if String.eqb path "" then "configs/sfx_agent.yml" else path) = Some (Some (PDict d)) ->
  match config_init fos files path with
  | Ret _ => True
  | Exn e => exists m, e = ConfigError m
  end.
Proof.
  intro Hf. unfold config_init. cbv zeta. rewrite Hf.
  unfold validate. rewrite missing_sections_dict.
  remember (map fst (filter (absent_in d) required_config)) as ms eqn:Ems.
  symmetry in Ems. cbn [obind].
  destruct ms as [|s ss];
    [|simpl; eexists; reflexivity].
  pose proof (missing_sections_nil d required_config Ems) as Hsec.
  destruct (missing_entries_cases d required_config Hsec) as [[mk Hmk] | [m Hm]];
    [|rewrite Hm; simpl; eexists; reflexivity].
  rewrite Hmk. cbn [obind].
  destruct mk as [|k ks]; [|simpl; eexists; reflexivity].
  destruct (type_checks fos (PDict d)) as [u|e];
    [| destruct e; simpl; eexists; reflexivity].
  cbn [obind].
  destruct (missing_entries_nil _ _ Hmk "library" ["path"] "path") as [lp [Hlp _]];
    [simpl; tauto | simpl; tauto |].
  destruct (missing_entries_nil _ _ Hmk "logging" ["level"] "level") as [lv [Hlv _]];
    [simpl; tauto | simpl; tauto |].
  rewrite Hlp. cbn [obind].
  destruct (is_str lp); simpl; [|eexists; reflexivity].
  rewrite Hlv. cbn [obind].
  destruct (is_str lv); simpl; [exact I | eexists; reflexivity].
Qed.

Lemma config_init_dict_errors_witness :
  let files : config_files := fun _ => Some (Some (PDict [("gemma", PDict [("model", PStr "g")])])) in
  files "configs/sfx_agent.yml" = Some (Some (PDict [("gemma", PDict [("model", PStr "g")])])) /\
  match config_init demo_fos files "" with
  | Ret _ => True
  | Exn e => exists m, e = ConfigError m
  end.
Proof.
  intro files. split; [reflexivity|].
  exact (config_init_dict_errors demo_fos files "" [("gemma", PDict [("model", PStr "g")])] eq_refl).
Defined.




(** For a config mapping that lacks required sections, [Config(path)]
    raises one ConfigError listing every missing section, in the order of
    [required], before looking at any entry. *)
Theorem config_init_missing_sections fos files path d :
  files (if String.eqb path "" then "configs/sfx_agent.yml" else path) = Some (Some (PDict d)) ->
  map fst (filter (absent_in d) required_config) <> [] ->
  config_init fos files path
    = Exn (ConfigError ("Missing required config sections: "
                        ++ join ", " (map fst (filter (absent_in d) required_config)))).
Proof.
  intros Hf Hne. unfold config_init. cbv zeta. rewrite Hf.
  unfold validate. rewrite missing_sections_dict. cbn [obind].
  destruct (map fst (filter (absent_in d) required_config)); [congruence | reflexivity].
Qed.

Lemma config_init_missing_sections_witness :
  config_init demo_fos (fun _ => Some (Some (PDict [("gemma", PDict [("model", PStr "g")])]))) ""
    = Exn (ConfigError "Missing required config sections: elevenlabs, output, prompt, processing, library, logging").
Proof.
  exact (config_init_missing_sections demo_fos
           (fun _ => Some (Some (PDict [("gemma", PDict [("model", PStr "g")])]))) ""
           [("gemma", PDict [("model", PStr "g")])] eq_refl ltac:(discriminate)).
Defined.

(** ** Orchestrator *)

(** When [Config(config_path)] raises FileNotFoundError or ConfigError, the
    run returns no successes and exactly that one configuration error, and
    makes no call at all. *)
Theorem run_pipeline_config_failure fos fmt pr W brief path before e :
  config_init fos (w_config W) path = Exn e ->
  (exists m, e = FileNotFoundError m) \/ (exists m, e = ConfigError m) ->
  run_pipeline fos fmt pr W brief path before
    = (Ret ([], [MsgConfig e]), mkst [] [MsgConfig e] [] PNone before).
Proof.
  intros Hc [[m ->] | [m ->]]; unfold run_pipeline, run_sfx_pipeline, mbind;
    rewrite Hc; reflexivity.
Qed.

Lemma run_pipeline_config_failure_witness :
  run_pipeline demo_fos demo_fmt demo_pr (demo_world (PDict demo_partial) 0.3)
    "door slam" "missing.yml" []
    = (Ret ([], [MsgConfig (FileNotFoundError "Config file not found: missing.yml")]),
       mkst [] [MsgConfig (FileNotFoundError "Config file not found: missing.yml")] [] PNone []).
Proof.
  apply run_pipeline_config_failure; [reflexivity|]. left. eexists. reflexivity.
Defined.

(** When the configuration loads but [decompose_brief] raises, the run
    returns no successes and one error: "Failed to decompose brief" for a
    DecomposerError, "Unhandled exception" for any other exception (for
    instance the FileNotFoundError of a missing [ollama] binary); the
    decomposer is the only call made. *)
Theorem run_pipeline_decompose_failure fos fmt pr W brief path before cfg e :
  config_init fos (w_config W) path = Ret cfg ->
  w_decompose W brief before = Exn e ->
  exists s',
    run_pipeline fos fmt pr W brief path before
      = (Ret ([], [match e with DecomposerError _ => MsgDecompose e | _ => MsgUnhandled e end]), s') /\
    trace s' = (before ++ [EvDecompose brief])%list.
Proof.
  intros Hcfg Hdec.
  unfold run_pipeline, run_sfx_pipeline, mbind. rewrite Hcfg.
  unfold pipeline_body, mtry, mbind, decompose_step, mtry, mbind, call, mlift.
  cbn [trace init_st]. rewrite Hdec.
  destruct e; simpl; eexists; split; reflexivity.
Qed.

Lemma run_pipeline_decompose_failure_witness :
  exists s',
    run_pipeline demo_fos demo_fmt demo_pr
      (demo_world_decompose_raises (FileNotFoundError "ollama"))
      "door slam" "cfg.yml" []
      = (Ret ([], [MsgUnhandled (FileNotFoundError "ollama")]), s') /\
    trace s' = [EvDecompose "door slam"].
Proof.
  exact (run_pipeline_decompose_failure demo_fos demo_fmt demo_pr
           (demo_world_decompose_raises (FileNotFoundError "ollama")) "door slam" "cfg.yml" []
           demo_cfg (FileNotFoundError "ollama") eq_refl eq_refl).
Defined.

(** Step 3 for a decomposer mapping [d], given the configured list [l0]:
    the decomposer's [batch_influences] is used, converted to floats, when
    it is a non-empty list whose elements all convert; when it is absent,
    not a list or empty, or when a conversion raises ValueError or
    TypeError, [l0] is used; any other conversion error propagates. *)
Theorem resolve_influences_dict fos cfg d l0 :
  batch_influences fos cfg = Ret l0 ->
  resolve_influences fos cfg (PDict d)
    = match dict_get d "batch_influences" with
      | Some (PList ((_ :: _) as xs)) =>
          match omap (py_float fos) xs with
          | Ret fl => Ret fl
          | Exn (ValueError _) | Exn (TypeError _) => Ret l0
          | Exn e => Exn e
          end
      | _ => Ret l0
      end.
Proof.
  intro Hb.
  assert (Hom : omap (py_float fos) (map PFloat l0) = Ret l0).
  { clear. induction l0 as [|x l IH]; simpl; [reflexivity|].
    rewrite IH. reflexivity. }
  unfold resolve_influences, py_get, cfg_influences_value. rewrite Hb. cbn [obind].
  destruct (dict_get d "batch_influences") as [v|].
  - destruct v as [| | | | | |[|x xs]|]; cbn [obind py_iter];
      try (destruct l0 as [|y l0']; cbn [obind py_iter map] in *; [reflexivity|];
           rewrite Hom; reflexivity).
    destruct (omap (py_float fos) (x :: xs)) as [fl|[]]; reflexivity.
  - destruct l0 as [|y l0']; cbn [obind py_iter map] in *; [reflexivity|].
    rewrite Hom. reflexivity.
Qed.

Lemma resolve_influences_dict_witness :
  batch_influences demo_fos demo_cfg = Ret [0.3; 0.7]%float /\
  resolve_influences demo_fos demo_cfg
    (PDict [("batch_influences", PList [PStr "loud"])]) = Ret [0.3; 0.7]%float.
Proof.
  assert (Hb : batch_influences demo_fos demo_cfg = Ret [0.3; 0.7]%float)
    by (vm_compute; reflexivity).
  split; [exact Hb|].
  rewrite (resolve_influences_dict demo_fos demo_cfg
             [("batch_influences", PList [PStr "loud"])] _ Hb).
  vm_compute. reflexivity.
Defined.

(** ** The variation loop's bookkeeping *)

Lemma library_entry_fields res brief prompt raw r :
  library_entry res brief prompt raw = Ret r ->
  exists d, r = PDict d /\ dict_get d "brief" = Some (PStr brief) /\
            dict_get d "prompt" = Some (PStr prompt) /\
            dict_get d "raw_audio_path" = Some raw.
Proof.
  destruct res; simpl; try discriminate.
  intro H. inversion H; subst r. eexists. split; [reflexivity|].
  repeat (rewrite dict_get_set_same || rewrite dict_get_set_other by discriminate).
  auto.
Qed.

Lemma loop_spec_accounting brief infls s s' recs :
  loop_spec brief infls s s' recs ->
  (length (processed_files s') + length (errors s')
     = length (processed_files s) + length (errors s) + length infls)%nat /\
  (exists new, errors s' = (errors s ++ new)%list /\
     Forall (fun m => exists i, msg_influence m = Some i /\ In i infls) new) /\
  Forall (brief_record brief) recs.
Proof.
  induction 1 as [s|i rest s s1 s2 o recs Hv Hl [IH1 [[new [IH2 IH3]] IH4]]].
  - split; [simpl; lia|]. split; [|constructor]. exists []. split; [rewrite app_nil_r; reflexivity | constructor].
  - inversion Hv as [p r res prompt raw H1 H2 H3 H4 | m H1 H2 H3 H4]; subst.
    + rewrite H1, H3, length_app in IH1. simpl in IH1.
      split; [simpl; lia|]. split.
      * exists new. rewrite IH2, H3. split; [reflexivity|].
        eapply Forall_impl; [|exact IH3]. intros m [j [Hj1 Hj2]]. exists j. simpl; auto.
      * simpl. constructor; [|exact IH4].
        destruct (library_entry_fields _ _ _ _ _ H4) as [d [E1 [E2 [E3 _]]]].
        exists d. split; [exact E1|]. split; [exact E2|]. exists prompt. exact E3.
    + rewrite H1, H3, length_app in IH1. simpl in IH1.
      split; [simpl; lia|]. split.
      * exists (m :: new). rewrite IH2, H3, <- app_assoc. split; [reflexivity|].
        constructor.
        -- exists i. simpl. auto.
        -- eapply Forall_impl; [|exact IH3]. intros m' [j [Hj1 Hj2]]. exists j. simpl; auto.
      * exact IH4.
Qed.

(** Step 4 when [process_audio] raises or returns its result dict: every
    variation adds exactly one processed path or exactly one error message,
    so the run's processed paths and errors grow together by the number of
    influence values; each new error message names one of those values; and
    every record collected for the library is a mapping that carries the
    brief and a string prompt. *)
Theorem run_variations_accounting fos fmt pr W brief cfg sp dur infls s :
  process_contract W ->
  let s' := snd (run_variations fos fmt pr W brief cfg sp dur infls s) in
  (length (processed_files s') + length (errors s')
     = length (processed_files s) + length (errors s) + length infls)%nat /\
  (exists new, errors s' = (errors s ++ new)%list /\
     Forall (fun m => exists i, msg_influence m = Some i /\ In i infls) new) /\
  (exists recs, results_for_library s' = (results_for_library s ++ recs)%list /\
     Forall (brief_record brief) recs).
Proof.
  intros Hproc s'.
  destruct (run_variations_holds fos fmt pr W Hproc brief cfg sp dur infls s)
    as [_ [_ [recs R]]].
  destruct (loop_spec_accounting _ _ _ _ _ R) as [A1 [A2 A3]].
  destruct (loop_spec_counts _ _ _ _ _ R) as [C1 _].
  split; [exact A1|]. split; [exact A2|]. exists recs. split; [exact C1 | exact A3].
Qed.

Lemma run_variations_accounting_witness :
  process_contract (demo_world (demo_sp (PList [PFloat 0.3; PFloat 0.7])) 0.3) /\
  (length (processed_files (snd (run_variations demo_fos demo_fmt demo_pr
      (demo_world (demo_sp (PList [PFloat 0.3; PFloat 0.7])) 0.3) "door slam" demo_cfg
      (demo_sp (PList [PFloat 0.3; PFloat 0.7])) 2 [0.3; 0.7]%float (init_st []))))
   + length (errors (snd (run_variations demo_fos demo_fmt demo_pr
      (demo_world (demo_sp (PList [PFloat 0.3; PFloat 0.7])) 0.3) "door slam" demo_cfg
      (demo_sp (PList [PFloat 0.3; PFloat 0.7])) 2 [0.3; 0.7]%float (init_st [])))))%nat = 2%nat.
Proof.
  assert (Hc : process_contract (demo_world (demo_sp (PList [PFloat 0.3; PFloat 0.7])) 0.3)).
  { intros raw t o tr. simpl. exists (PStr "out/raw_norm.wav"). split; reflexivity. }
  split; [exact Hc|].
  destruct (run_variations_accounting demo_fos demo_fmt demo_pr
              (demo_world (demo_sp (PList [PFloat 0.3; PFloat 0.7])) 0.3)
              "door slam" demo_cfg (demo_sp (PList [PFloat 0.3; PFloat 0.7])) 2 [0.3; 0.7]%float
              (init_st []) Hc) as [A _].
  rewrite A. reflexivity.
Defined.

(** ** Prompt composition *)

(** [compose_prompt] reads the seven fields in the order of its keyword
    arguments: on a mapping, the KeyError it raises names the first of
    source, timbre, dynamics, duration, pitch, space, analogy that is
    missing, whatever the template. *)
Theorem compose_prompt_missing_key fmt d t k :
  find (fun k => match dict_get d k with Some _ => false | None => true end)
       ["source"; "timbre"; "dynamics"; "duration"; "pitch"; "space"; "analogy"] = Some k ->
  compose_prompt fmt (PDict d) t = Exn (KeyError k).
Proof.
  unfold compose_prompt, py_getitem. simpl find.
  destruct (dict_get d "source"); [|intro H; inversion H; reflexivity]; cbn [obind].
  destruct (dict_get d "timbre"); [|intro H; inversion H; reflexivity]; cbn [obind].
  destruct (dict_get d "dynamics"); [|intro H; inversion H; reflexivity]; cbn [obind].
  destruct (dict_get d "duration"); [|intro H; inversion H; reflexivity]; cbn [obind].
  destruct (dict_get d "pitch"); [|intro H; inversion H; reflexivity]; cbn [obind].
  destruct (dict_get d "space"); [|intro H; inversion H; reflexivity]; cbn [obind].
  destruct (dict_get d "analogy"); [discriminate|intro H; inversion H; reflexivity].
Qed.

Lemma compose_prompt_missing_key_witness :
  find (fun k => match dict_get demo_partial k with Some _ => false | None => true end)
       ["source"; "timbre"; "dynamics"; "duration"; "pitch"; "space"; "analogy"] = Some "analogy" /\
  compose_prompt demo_fmt (PDict demo_partial) (Some "{source}") = Exn (KeyError "analogy").
Proof.
  split; [reflexivity|].
  exact (compose_prompt_missing_key demo_fmt demo_partial (Some "{source}") "analogy" eq_refl).
Defined.

Lemma filter_nil_false {A} (f : A -> bool) l x :
  filter f l = [] -> In x l -> f x = false.
Proof.
  intros H Hx. destruct (f x) eqn:E; [|reflexivity].
  assert (Hin : In x (filter f l)) by (apply filter_In; auto).
  rewrite H in Hin. destruct Hin.
Qed.

(** The composition inside the variation loop: once the decomposer's
    mapping has passed the check for the six prompt fields, the parameters
    of a variation (which set [duration]) always compose, provided the
    default template formats with its seven fields supplied; so the
    loop's "missing key" message never comes from the composer. *)
Theorem compose_prompt_after_check fmt d i dur params :
  (forall args, map fst args =
     ["source"; "timbre"; "dynamics"; "duration"; "pitch"; "space"; "analogy"] ->
     exists p, fmt DEFAULT_TEMPLATE args = Ret p) ->
  missing_keys (PDict d) REQUIRED_DECOMPOSER_KEYS_FOR_PROMPT = Ret [] ->
  iter_params (PDict d) i dur = Ret params ->
  exists p, compose_prompt fmt params None = Ret p.
Proof.
  intros Hf Hm Hp. simpl in Hp. inversion Hp; subst params. clear Hp.
  assert (Hm' : filter (fun k => match dict_get d k with Some _ => false | None => true end)
                  REQUIRED_DECOMPOSER_KEYS_FOR_PROMPT = [])
    by (rewrite missing_keys_dict in Hm; congruence).
  clear Hm.
  assert (G : forall k, In k REQUIRED_DECOMPOSER_KEYS_FOR_PROMPT ->
            exists v, dict_get (dict_set (dict_set d "prompt_influence" (PFloat i))
                                          "duration" (PFloat dur)) k = Some v).
  { intros k Hk.
    pose proof (filter_nil_false _ _ _ Hm' Hk) as F. cbv beta in F.
    assert (Hk1 : k <> "duration") by (intro; subst k; simpl in Hk; intuition discriminate).
    assert (Hk2 : k <> "prompt_influence") by (intro; subst k; simpl in Hk; intuition discriminate).
    rewrite !dict_get_set_other by assumption.
    destruct (dict_get d k); [eexists; reflexivity | discriminate]. }
  destruct (G "source") as [v1 E1]; [simpl; tauto|].
  destruct (G "timbre") as [v2 E2]; [simpl; tauto|].
  destruct (G "dynamics") as [v3 E3]; [simpl; tauto|].
  destruct (G "pitch") as [v5 E5]; [simpl; tauto|].
  destruct (G "space") as [v6 E6]; [simpl; tauto|].
  destruct (G "analogy") as [v7 E7]; [simpl; tauto|].
  unfold compose_prompt, py_getitem.
  rewrite E1, E2, E3, dict_get_set_same, E5, E6, E7. cbn [obind].
  apply Hf. reflexivity.
Qed.

Lemma compose_prompt_after_check_witness :
  (forall args, map fst args =
     ["source"; "timbre"; "dynamics"; "duration"; "pitch"; "space"; "analogy"] ->
     exists p, demo_fmt DEFAULT_TEMPLATE args = Ret p) /\
  missing_keys (demo_sp (PList [])) REQUIRED_DECOMPOSER_KEYS_FOR_PROMPT = Ret [] /\
  exists p, compose_prompt demo_fmt
              (PDict (dict_set (dict_set
                 [("source", PStr "door"); ("timbre", PStr "wooden"); ("dynamics", PStr "loud");
                  ("pitch", PStr "low"); ("space", PStr "hall"); ("analogy", PStr "thunder");
                  ("duration", PFloat 2); ("batch_influences", PList [])]
                 "prompt_influence" (PFloat 0.3)) "duration" (PFloat 2))) None = Ret p.
Proof.
  assert (Hf : forall args, map fst args =
     ["source"; "timbre"; "dynamics"; "duration"; "pitch"; "space"; "analogy"] ->
     exists p, demo_fmt DEFAULT_TEMPLATE args = Ret p).
  { intros args _. exists DEFAULT_TEMPLATE. reflexivity. }
  assert (Hm : missing_keys (demo_sp (PList [])) REQUIRED_DECOMPOSER_KEYS_FOR_PROMPT = Ret [])
    by reflexivity.
  split; [exact Hf|]. split; [exact Hm|].
  exact (compose_prompt_after_check demo_fmt _ 0.3 2 _ Hf Hm eq_refl).
Defined.

(** ** Library store *)

Lemma dict_set_set d k v v' : dict_set (dict_set d k v) k v' = dict_set d k v'.
Proof.
  induction d as [|[k0 v0] d IH]; simpl.
  - rewrite String.eqb_refl. reflexivity.
  - destruct (String.eqb k0 k) eqn:E; simpl; rewrite E; [reflexivity | rewrite IH; reflexivity].
Qed.

Lemma dict_set_not_nil d k v : dict_set d k v <> [].
Proof. destruct d as [|[k0 v0] d]; simpl; [|destruct (String.eqb k0 k)]; discriminate. Qed.

(** For results and a store that YAML can represent, adding under a brief
    that has a list extends that list (old entries first, the new ones
    after them), adding under a new brief creates its list, every other
    brief keeps its entries, and a missing store file is created holding
    just the new brief. *)
Theorem add_to_library_appends fs brief results p :
  p <> "" ->
  Forall (fun v => representable v = true) results ->
  (forall d l,
     fs p = Some (Parsed (PDict d)) -> representable (PDict d) = true ->
     dict_get d brief = Some (PList l) ->
     exists d2,
       add_to_library fs brief results (Some p) = (Ret p, fs_write fs p (Parsed (PDict d2))) /\
       dict_get d2 brief = Some (PList (l ++ results)) /\
       (forall k, k <> brief -> dict_get d2 k = dict_get d k)) /\
  (forall d,
     fs p = Some (Parsed (PDict d)) -> representable (PDict d) = true ->
     dict_get d brief = None ->
     exists d2,
       add_to_library fs brief results (Some p) = (Ret p, fs_write fs p (Parsed (PDict d2))) /\
       dict_get d2 brief = Some (PList results) /\
       (forall k, k <> brief -> dict_get d2 k = dict_get d k)) /\
  (fs p = None ->
     add_to_library fs brief results (Some p)
       = (Ret p, fs_write fs p (Parsed (PDict [(brief, PList results)])))).
Proof.
  intros Hp Hres. split; [|split].
  - intros d l Hfs Hd Hget.
    exists (dict_set d brief (PList (l ++ results))).
    unfold add_to_library. rewrite (lib_path_some _ Hp), Hfs. cbv match.
    rewrite truthy_dict. cbv match. rewrite Hget. cbv match zeta beta.
    assert (Hl : forallb representable l = true).
    { clear -Hd Hget. simpl in Hd. induction d as [|[k v] d IH]; simpl in *; [discriminate|].
      apply andb_true_iff in Hd as [H1 H2].
      destruct (String.eqb k brief); [inversion Hget; subst; exact H1 | auto]. }
    rewrite (representable_set _ brief _ Hd (representable_list _ _ Hl Hres)).
    split; [reflexivity|]. split; [apply dict_get_set_same|].
    intros k Hk. apply dict_get_set_other. exact Hk.
  - intros d Hfs Hd Hget.
    exists (dict_set (dict_set d brief (PList [])) brief (PList ([] ++ results))).
    unfold add_to_library. rewrite (lib_path_some _ Hp), Hfs. cbv match.
    rewrite truthy_dict. cbv match. rewrite Hget. cbv match zeta beta.
    rewrite (representable_set _ brief _ (representable_set _ brief (PList []) Hd eq_refl)
               (representable_list [] _ eq_refl Hres)).
    split; [reflexivity|]. split; [apply dict_get_set_same|].
    intros k Hk. rewrite !dict_get_set_other by exact Hk. reflexivity.
  - intro Hfs. unfold add_to_library. rewrite (lib_path_some _ Hp), Hfs. cbv match.
    assert (E : representable (PList results) = true)
      by exact (representable_list [] _ eq_refl Hres).
    simpl. rewrite String.eqb_refl. simpl.
    simpl in E. rewrite E. reflexivity.
Qed.

Lemma add_to_library_appends_witness :
  exists d2,
    add_to_library demo_store "X" [PDict [("path", PStr "b.wav")]] (Some "lib.yml")
      = (Ret "lib.yml", fs_write demo_store "lib.yml" (Parsed (PDict d2))) /\
    dict_get d2 "X" = Some (PList [PDict [("path", PStr "a.wav")]; PDict [("path", PStr "b.wav")]]).
Proof.
  assert (Hr : Forall (fun v => representable v = true) [PDict [("path", PStr "b.wav")]])
    by (repeat constructor).
  destruct (add_to_library_appends demo_store "X" [PDict [("path", PStr "b.wav")]] "lib.yml"
              ltac:(discriminate) Hr) as [H1 _].
  destruct (H1 [("X", PList [PDict [("path", PStr "a.wav")]])] [PDict [("path", PStr "a.wav")]]
              eq_refl eq_refl eq_refl) as [d2 [A [B _]]].
  exists d2. split; assumption.
Defined.

(** Adding [r1] and then [r2] under the same brief to the same store gives
    the store that adding [r1 ++ r2] at once gives: the second call reads
    back the list the first one wrote and extends it. *)
Theorem add_to_library_twice fs brief r1 r2 p lp1 fs1 lp2 fs2 :
  add_to_library fs brief r1 p = (Ret lp1, fs1) ->
  add_to_library fs1 brief r2 p = (Ret lp2, fs2) ->
  lp2 = lp1 /\
  exists fs3, add_to_library fs brief (r1 ++ r2) p = (Ret lp1, fs3) /\
              forall q, fs3 q = fs2 q.
Proof.
  intros H1 H2. unfold add_to_library in *.
  set (L := match p with
            | Some p0 => if String.eqb p0 "" then "prompt_library.yml" else p0
            | None => "prompt_library.yml"
            end) in *.
  destruct (match fs L with
            | Some (Parsed v) => Ret (if py_truthy v then v else PDict [])
            | Some Unparseable => Exn (OtherError "YAMLError")
            | None => Ret (PDict [])
            end) as [D|e]; cbv match in H1 |- *; [|discriminate].
  destruct D as [| | | | | | |d]; try discriminate.
  assert (Hex : exists d1 l, (match dict_get d brief with
                              | Some v => (d, v)
                              | None => (dict_set d brief (PList []), PList [])
                              end) = (d1, PList l)).
  { destruct (dict_get d brief) as [v|]; [|eexists _, []; reflexivity].
    destruct v as [| | | | | |l|]; try discriminate H1. eexists _, l. reflexivity. }
  destruct Hex as [d1 [l Ex]]. rewrite Ex in H1 |- *. cbv match zeta beta in H1 |- *.
  destruct (representable (PDict (dict_set d1 brief (PList (l ++ r1))))) eqn:R1;
    [|discriminate].
  injection H1 as <- <-.
  unfold fs_write at 1 in H2. rewrite String.eqb_refl in H2. cbv match in H2.
  assert (Ht : py_truthy (PDict (dict_set d1 brief (PList (l ++ r1)))) = true).
  { unfold py_truthy. destruct (dict_set d1 brief (PList (l ++ r1))) eqn:E;
      [exfalso; exact (dict_set_not_nil _ _ _ E) | reflexivity]. }
  rewrite Ht in H2. cbv match in H2. rewrite dict_get_set_same in H2. cbv match zeta beta in H2.
  rewrite dict_set_set in H2.
  rewrite <- app_assoc in H2.
  destruct (representable (PDict (dict_set d1 brief (PList (l ++ r1 ++ r2))))) eqn:R2;
    [|discriminate].
  injection H2 as <- <-.
  split; [reflexivity|].
  eexists. split; [reflexivity|].
  intro q. unfold fs_write. destruct (String.eqb q L); reflexivity.
Qed.

Lemma add_to_library_twice_witness :
  let a := PDict [("path", PStr "a.wav")] in
  let b := PDict [("path", PStr "b.wav")] in
  let c := PDict [("path", PStr "c.wav")] in
  let fs1 := fs_write demo_store "lib.yml" (Parsed (PDict [("X", PList [a; b])])) in
  let fs2 := fs_write fs1 "lib.yml" (Parsed (PDict [("X", PList [a; b; c])])) in
  add_to_library demo_store "X" [b] (Some "lib.yml") = (Ret "lib.yml", fs1) /\
  add_to_library fs1 "X" [c] (Some "lib.yml") = (Ret "lib.yml", fs2) /\
  exists fs3,
    add_to_library demo_store "X" [b; c] (Some "lib.yml") = (Ret "lib.yml", fs3) /\
    forall q, fs3 q = fs2 q.
Proof.
  intros a b c fs1 fs2.
  assert (H1 : add_to_library demo_store "X" [b] (Some "lib.yml") = (Ret "lib.yml", fs1))
    by reflexivity.
  assert (H2 : add_to_library fs1 "X" [c] (Some "lib.yml") = (Ret "lib.yml", fs2))
    by reflexivity.
  split; [exact H1|]. split; [exact H2|].
  destruct (add_to_library_twice _ _ _ _ _ _ _ _ _ H1 H2) as [_ H].
  exact H.
Defined.

(** The runner's library records keep [raw_audio_path], the [Path] that
    [generate_audio] returns; the safe YAML dumper cannot write such a
    record, so an [add_to_library] call whose results contain one never
    succeeds, whatever the store holds. *)
Theorem add_to_library_rejects_runner_record fs brief prompt res rp r rs1 rs2 p :
  library_entry res brief prompt (PPath rp) = Ret r ->
  exists e, fst (add_to_library fs brief (rs1 ++ r :: rs2) p) = Exn e.
Proof.
  intro Hr.
  destruct (library_entry_fields _ _ _ _ _ Hr) as [dr [-> [_ [_ Hraw]]]].
  assert (Rr : representable (PDict dr) = false)
    by exact (representable_get_false _ _ _ Hraw eq_refl).
  unfold add_to_library.
  destruct (match fs _ with
            | Some (Parsed v) => Ret (if py_truthy v then v else PDict [])
            | Some Unparseable => Exn (OtherError "YAMLError")
            | None => Ret (PDict [])
            end) as [D|e]; cbn [obind]; [|eexists; reflexivity].
  destruct D as [| | | | | | |d]; try (eexists; reflexivity).
  assert (Hex : (exists d1 l, (match dict_get d brief with
                               | Some v => (d, v)
                               | None => (dict_set d brief (PList []), PList [])
                               end) = (d1, PList l)) \/
                exists v, (match dict_get d brief with
                           | Some v => (d, v)
                           | None => (dict_set d brief (PList []), PList [])
                           end) = (d, v) /\ forall l, v <> PList l).
  { destruct (dict_get d brief) as [v|]; [|left; eexists _, []; reflexivity].
    destruct v as [| | | | | |l|];
      try (right; eexists; split; [reflexivity | intros l' E; discriminate E]).
    left. eexists _, l. reflexivity. }
  destruct Hex as [[d1 [l Ex]] | [v [Ex Hv]]]; rewrite Ex.
  - assert (R : representable (PDict (dict_set d1 brief (PList (l ++ rs1 ++ PDict dr :: rs2))))
                = false).
    { apply (representable_get_false _ brief _ (dict_get_set_same _ _ _)).
      simpl. rewrite !forallb_app. simpl. cbn [representable] in Rr. rewrite Rr.
      rewrite !andb_false_r. reflexivity. }
    rewrite R. eexists; reflexivity.
  - destruct v as [| | | | | |l|]; try (eexists; reflexivity).
    exfalso. exact (Hv l eq_refl).
Qed.

Lemma add_to_library_rejects_runner_record_witness :
  library_entry (PDict [("output_path", PStr "out/raw_norm.wav")]) "X" "p" (PPath "out/raw.wav")
    = Ret (PDict [("output_path", PStr "out/raw_norm.wav"); ("brief", PStr "X");
                  ("prompt", PStr "p"); ("raw_audio_path", PPath "out/raw.wav")]) /\
  exists e, fst (add_to_library demo_store "X"
                   ([] ++ [PDict [("output_path", PStr "out/raw_norm.wav"); ("brief", PStr "X");
                                  ("prompt", PStr "p"); ("raw_audio_path", PPath "out/raw.wav")]])
                   (Some "lib.yml")) = Exn e.
Proof.
  assert (H : library_entry (PDict [("output_path", PStr "out/raw_norm.wav")]) "X" "p"
                (PPath "out/raw.wav")
              = Ret (PDict [("output_path", PStr "out/raw_norm.wav"); ("brief", PStr "X");
                            ("prompt", PStr "p"); ("raw_audio_path", PPath "out/raw.wav")]))
    by reflexivity.
  split; [exact H|].
  exact (add_to_library_rejects_runner_record demo_store "X" "p" _ "out/raw.wav" _ [] []
           (Some "lib.yml") H).
Defined.

(** ** Further configuration properties *)



(** ** The generator's file name *)

Lemma str_map_length f s : String.length (str_map f s) = String.length s.
Proof. induction s as [|c s IH]; simpl; auto. Qed.

Lemma str_map_app f s t : str_map f (s ++ t) = str_map f s ++ str_map f t.
Proof. induction s as [|c s IH]; simpl; [reflexivity | rewrite IH; reflexivity]. Qed.

Lemma str_map_compose f g s : str_map f (str_map g s) = str_map (fun c => f (g c)) s.
Proof. induction s as [|c s IH]; simpl; [reflexivity | rewrite IH; reflexivity]. Qed.

Lemma str_map_ext f g s : (forall c, f c = g c) -> str_map f s = str_map g s.
Proof. intro H. induction s as [|c s IH]; simpl; [reflexivity | rewrite H, IH; reflexivity]. Qed.

Lemma substring0_length m s : String.length (substring 0 m s) = Nat.min m (String.length s).
Proof.
  revert s. induction m as [|m IH]; intros [|c s]; simpl; auto.
Qed.

Lemma substring0_map f m s : str_map f (substring 0 m s) = substring 0 m (str_map f s).
Proof.
  revert s. induction m as [|m IH]; intros [|c s]; simpl; auto. rewrite IH. reflexivity.
Qed.

Lemma substring0_idem m s : substring 0 m (substring 0 m s) = substring 0 m s.
Proof.
  revert s. induction m as [|m IH]; intros [|c s]; simpl; auto. rewrite IH. reflexivity.
Qed.

Lemma substring0_app m s t : (m <= String.length s)%nat -> substring 0 m (s ++ t) = substring 0 m s.
Proof.
  revert s. induction m as [|m IH]; intros [|c s] H; simpl in *; try reflexivity; try lia.
  - destruct t; reflexivity.
  - rewrite IH by lia. reflexivity.
Qed.

Lemma substring0_get m s n c : String.get n (substring 0 m s) = Some c -> String.get n s = Some c.
Proof.
  revert s n. induction m as [|m IH]; intros [|c0 s] n H; simpl in *; try discriminate; auto.
  destruct n as [|n]; simpl in *; auto.
Qed.

Lemma str_map_get f s n c : String.get n (str_map f s) = Some c -> exists c0, c = f c0.
Proof.
  revert n. induction s as [|c0 s IH]; intros n H; simpl in *; [discriminate|].
  destruct n as [|n]; [injection H as <-; eauto | eauto].
Qed.

Lemma safe_char_ok c : is_alnum (safe_char c) || Ascii.eqb (safe_char c) "_" || Ascii.eqb (safe_char c) "-" = true.
Proof.
  unfold safe_char.
  destruct (is_alnum c || Ascii.eqb c "_" || Ascii.eqb c "-") eqn:E; [exact E | reflexivity].
Qed.

Lemma safe_char_idem c : safe_char (safe_char c) = safe_char c.
Proof.
  unfold safe_char at 1. rewrite safe_char_ok. reflexivity.
Qed.

(** The stem of the file name [generate_audio] builds from the prompt, for
    a prompt of Latin-1 characters (code points below 256, the characters
    the model's strings hold): it holds at most 50 characters (exactly 50
    when the prompt is longer), each one that [str.isalnum] accepts (an
    accented letter such as 'é' included), [_] or [-], and sanitising it
    again changes nothing. *)
Theorem safe_name_props p :
  String.length (safe_name p) = Nat.min 50 (String.length p) /\
  (forall n c, String.get n (safe_name p) = Some c ->
     is_alnum c || Ascii.eqb c "_" || Ascii.eqb c "-" = true) /\
  safe_name (safe_name p) = safe_name p.
Proof.
  unfold safe_name. split; [|split].
  - rewrite substring0_length, str_map_length. reflexivity.
  - intros n c H. apply substring0_get, str_map_get in H as [c0 ->]. apply safe_char_ok.
  - rewrite substring0_map, substring0_idem, str_map_compose.
    rewrite (str_map_ext _ safe_char) by exact safe_char_idem. reflexivity.
Qed.

(** Only the first 50 characters of the prompt reach the file name: two
    prompts that share them get the same stem, so with the same duration,
    influence and format [generate_audio] writes to the same path. *)
Theorem safe_name_prefix p q :
  (50 <= String.length p)%nat -> safe_name (p ++ q) = safe_name p.
Proof.
  intro H. unfold safe_name. rewrite str_map_app.
  apply substring0_app. rewrite str_map_length. exact H.
Qed.

Lemma safe_name_prefix_witness :
  (50 <= String.length "a door slams shut in a large empty hall, echoing twice")%nat /\
  safe_name ("a door slams shut in a large empty hall, echoing twice" ++ " and fades")
    = safe_name "a door slams shut in a large empty hall, echoing twice".
Proof.
  assert (H : (50 <= String.length "a door slams shut in a large empty hall, echoing twice")%nat)
    by (simpl; lia).
  split; [exact H|]. exact (safe_name_prefix _ _ H).
Defined.

(** ** Model calls *)

(** When the default config file does not load, [call_gemma] raises the
    configuration's own error before running anything, even when a model
    name is passed; so [decompose_brief] and [request_feedback] raise it too
    (not a DecomposerError or FeedbackError). *)
Theorem call_gemma_needs_default_config fos loads pystr files run e :
  config_init fos files "" = Exn e ->
  (forall prompt model, call_gemma fos loads files run prompt model = Exn e) /\
  (forall brief, decompose_brief fos loads files run brief = Exn e) /\
  (forall prompt metrics, request_feedback fos loads pystr files run prompt metrics = Exn e).
Proof.
  intro H. unfold decompose_brief, request_feedback, call_gemma.
  rewrite H. cbn [obind]. auto.
Qed.

Lemma call_gemma_needs_default_config_witness :
  config_init demo_fos (fun _ => None) ""
    = Exn (FileNotFoundError "Config file not found: configs/sfx_agent.yml") /\
  request_feedback demo_fos (fun _ => None) (fun _ => "{}") (fun _ => None)
    (fun _ => ProcOutput (Some "{}")) "door" (PDict [])
    = Exn (FileNotFoundError "Config file not found: configs/sfx_agent.yml").
Proof.
  assert (H : config_init demo_fos (fun _ => None) ""
              = Exn (FileNotFoundError "Config file not found: configs/sfx_agent.yml"))
    by reflexivity.
  split; [exact H|].
  exact (proj2 (proj2 (call_gemma_needs_default_config demo_fos (fun _ => None) (fun _ => "{}")
           (fun _ => None) (fun _ => ProcOutput (Some "{}")) _ H)) "door" (PDict [])).
Defined.

Lemma nd_bind {A C} (m : outcome A) (k : A -> outcome C) :
  (forall x, m <> Exn (DecomposerError x)) ->
  (forall a x, k a <> Exn (DecomposerError x)) ->
  forall x, obind m k <> Exn (DecomposerError x).
Proof.
  intros Hm Hk x. destruct m as [a|e]; simpl; [apply Hk|].
  intro E. injection E as ->. exact (Hm x eq_refl).
Qed.

Lemma nd_py_getitem o k : forall x, py_getitem o k <> Exn (DecomposerError x).
Proof. intro x. destruct o; simpl; try discriminate. destruct (dict_get _ _); discriminate. Qed.

Lemma nd_py_contains o k : forall x, py_contains o k <> Exn (DecomposerError x).
Proof. intro x. destruct o; discriminate. Qed.

Lemma nd_py_float fos v : forall x, py_float fos v <> Exn (DecomposerError x).
Proof.
  intro x. destruct v; simpl; try discriminate.
  - destruct (_ <=? _)%Z; discriminate.
  - destruct (fos _); discriminate.
Qed.

Lemma nd_cfg_item v sec k : forall x, cfg_item v sec k <> Exn (DecomposerError x).
Proof. apply nd_bind; [apply nd_py_getitem | intro; apply nd_py_getitem]. Qed.

Lemma nd_missing_sections v secs : forall x, missing_sections v secs <> Exn (DecomposerError x).
Proof.
  induction secs as [|[sec keys] secs IH]; simpl; [discriminate|].
  apply nd_bind; [apply nd_py_contains|]. intro.
  apply nd_bind; [exact IH|]. intros. discriminate.
Qed.

Lemma nd_missing_entries v secs : forall x, missing_entries v secs <> Exn (DecomposerError x).
Proof.
  induction secs as [|[sec keys] secs IH]; simpl; [discriminate|].
  apply nd_bind; [apply nd_py_getitem|]. intros sd.
  destruct sd; try discriminate.
  apply nd_bind; [exact IH|]. intros. discriminate.
Qed.

Lemma nd_config_init fos files path : forall x, config_init fos files path <> Exn (DecomposerError x).
Proof.
  unfold config_init. destruct (files _) as [[v|]|]; try discriminate.
  assert (Hv : forall x, validate fos v <> Exn (DecomposerError x)).
  { unfold validate. apply nd_bind; [apply nd_missing_sections|]. intros [|m ms];
      [|discriminate].
    apply nd_bind; [apply nd_missing_entries|]. intros [|m mk]; [|discriminate].
    apply nd_bind.
    - destruct (type_checks fos v) as [u|[]]; discriminate.
    - intros _. apply nd_bind; [apply nd_cfg_item|]. intros lp.
      destruct (negb (is_str lp)); [discriminate|].
      apply nd_bind; [apply nd_cfg_item|]. intros lv.
      destruct (negb (is_str lv)); discriminate. }
  destruct v; try discriminate; apply nd_bind; try exact Hv; intros; discriminate.
Qed.

(** [request_feedback] never lets a DecomposerError escape: whatever the
    configuration, the process and its output are, a DecomposerError of
    [call_gemma] comes out as a FeedbackError, and nothing before the call
    raises one. *)
Theorem request_feedback_no_decomposer_error fos loads pystr files run prompt metrics :
  match request_feedback fos loads pystr files run prompt metrics with
  | Exn (DecomposerError _) => False
  | _ => True
  end.
Proof.
  assert (H : forall m, request_feedback fos loads pystr files run prompt metrics
                        <> Exn (DecomposerError m)).
  { unfold request_feedback. apply nd_bind; [apply nd_config_init|]. intro cfg.
    apply nd_bind; [apply nd_cfg_item|]. intros model x.
    destruct (call_gemma fos loads files run _ model) as [v|[]]; discriminate. }
  destruct (request_feedback fos loads pystr files run prompt metrics) as [v|[]]; try exact I.
  exact (H m eq_refl).
Qed.
